(** * ydns-py: the update orchestrator and the address-family-forced
    HTTPS transport, as a shallow embedding of [src/ydns_py/__init__.py].

    The Python code is effectful: it prints to two streams, talks to the
    resolver, the socket layer and the TLS library, raises and catches
    exceptions and ends the process with [sys.exit].  The embedding keeps
    all of that explicit: programs are functions in a state-and-exception
    monad [M]; the operating system, the network and the libraries the
    program calls are an arbitrary instance of the class [Network]; every
    call that leaves the program is also recorded in a log, so that
    statements about "what was attempted" are statements about that
    log. *)

From Stdlib Require Import ZArith Lia Ascii.
From stdpp Require Import base option list strings pretty gmap.

Local Open Scope Z_scope.
Local Open Scope string_scope.
Local Open Scope list_scope.

(** ** Module-level constants (lines 51-62) *)

Definition EX_CONFIG_NOT_FOUND : Z := 1.
Definition EX_CONFIG_PARSE_ERROR : Z := 2.
Definition EX_NO_DOMAINS : Z := 3.
Definition EX_UPDATE_FAILED : Z := 4.
Definition EX_CONNECTION_ERROR : Z := 5.

Definition TIMEOUT : Z := 5.

(** [http.client.HTTPS_PORT] *)
Definition HTTPS_PORT : Z := 443.

(** ** Sockets and the resolver *)

Inductive AddressFamily := AF_UNSPEC | AF_INET | AF_INET6.
Inductive SocketKind := SOCK_STREAM | SOCK_DGRAM | SOCK_RAW.

Global Instance AddressFamily_eq_dec : EqDecision AddressFamily.
Proof. solve_decision. Defined.
Global Instance SocketKind_eq_dec : EqDecision SocketKind.
Proof. solve_decision. Defined.

(** [AddressFamily.name], used in the "no results" message. *)
Definition af_name (af : AddressFamily) : string :=
  match af with
  | AF_UNSPEC => "AF_UNSPEC"
  | AF_INET => "AF_INET"
  | AF_INET6 => "AF_INET6"
  end.

(** A socket address: textual host address and port. *)
Definition sockaddr : Type := string * Z.

(** One entry of [socket.getaddrinfo]'s result, the 5-tuple
    [(family, type, proto, canonname, sockaddr)]. *)
Record addrinfo := AddrInfo {
  ai_family : AddressFamily;
  ai_socktype : SocketKind;
  ai_proto : Z;
  ai_canonname : string;
  ai_addr : sockaddr
}.

(** A socket is known by its descriptor. *)
Definition fd : Type := Z.

(** What [self.sock] can hold: nothing, the raw socket, or the socket
    wrapped by the TLS context for a given server name. *)
Inductive sock_obj :=
| RawSocket (s : fd)
| TLSSocket (s : fd) (server_hostname : string).

(** ** Exceptions

    [exception] covers the subclasses of Python's [Exception] that the
    libraries used here raise; [raised] adds [SystemExit], which derives
    from [BaseException] only and so passes through [except Exception]. *)

Inductive exception :=
| OSError (msg : string)
| URLError (reason : string)
| HTTPError (code : Z) (reason : string)
| OtherException (msg : string).

Inductive raised :=
| Exception (e : exception)
| SystemExit (code : Z).

(** What the resolver, the socket layer, the tunnel handshake and the
    TLS library raise: an [OSError] ([socket.gaierror], [TimeoutError],
    [ConnectionRefusedError], [ssl.SSLError], ...) or, seldom, another
    exception ([UnicodeError], [http.client.HTTPException], ...); never
    one of urllib's own. *)
Inductive fault :=
| OSFault (msg : string)
| OtherFault (msg : string).

Definition fault_exception (f : fault) : exception :=
  match f with
  | OSFault msg => OSError msg
  | OtherFault msg => OtherException msg
  end.

(** [str(e)] *)
Definition str_exception (e : exception) : string :=
  match e with
  | OSError msg => msg
  | URLError reason => "<urlopen error " +:+ reason +:+ ">"
  | HTTPError code reason => "HTTP Error " +:+ pretty code +:+ ": " +:+ reason
  | OtherException msg => msg
  end.

(** ** Requests and responses

    [resp.status] is an integer for a response that came over HTTP and
    [None] for what urllib's handlers of other schemes return. *)

Record Request := mkRequest {
  full_url : string;
  headers : list (string * string)
}.

Record Response := mkResponse { status : option Z }.

(** ** Calls that leave the program, as they are logged

    [EvSocket] also tells which descriptor the call returned, if any.
    [EvClose] is a [close()] of the socket, whoever calls it: the
    program, or a library routine on its way out.  [EvExchange] and
    [EvDefaultOpen] are for what urllib does by itself. *)

Inductive event :=
| EvGetaddrinfo (host : string) (port : Z) (af : AddressFamily) (ty : SocketKind)
| EvSocket (af : AddressFamily) (ty : SocketKind) (proto : Z) (created : option fd)
| EvSetTimeout (s : fd) (t : Z)
| EvConnect (s : fd) (sa : sockaddr)
| EvClose (s : fd)
| EvTunnel (s : fd) (tunnel_host : string)
| EvWrapSocket (s : fd) (server_hostname : string)
| EvExchange (url : string)
| EvDefaultOpen (url : string).

(** ** What the libraries answer

    [HTTPConnection._tunnel()] either gets the tunnel, or is refused by
    the proxy with a status other than 200, and then closes the
    connection itself before it raises, or breaks on the way (no answer
    in time, a reset, a header line too long) and raises with the
    connection as it is. *)
Inductive tunnel_answer :=
| TunnelOpen
| TunnelRefused (code : Z) (message : string)
| TunnelBroken (f : fault).

(** [SSLContext.wrap_socket] either returns the TLS socket, or fails in
    the handshake, and then closes the socket it had taken over before
    it raises, or rejects its arguments before it touches the socket. *)
Inductive wrap_answer :=
| Wrapped
| HandshakeFailed (f : fault)
| WrapRejected (f : fault).

(** What urllib does with one [opener.open(req, timeout=...)] is not the
    program's to decide, and it is more than one connection: stock
    handlers serve the schemes other than [https] with their own
    resolver calls, a redirect makes a further request, a request may be
    refused before anything is dialled.  It is kept as a [plan]: a
    finite course of steps, each chosen by the library from what it has
    seen so far.  The one step in which the program's own code runs is
    [Dial]: a connection object of the opener's class is made for a
    host, port, timeout and tunnel host, and its [connect] is called;
    the library goes on from how [connect] ended, from [self.sock] and
    from the world it finds.  [Act] is anything the library does by
    itself, with the outside calls it makes. *)
Inductive plan (W : Type) : Type :=
| Return (resp : Response)
| Raise (e : exception)
| Act (evs : list event) (update : W → W) (next : W → plan W)
| Dial (host : string) (port : option Z) (timeout : Z) (tunnel_host : option string)
       (next : exception + unit → option sock_obj → W → plan W).

Arguments Return {W} resp.
Arguments Raise {W} e.
Arguments Act {W} evs update next.
Arguments Dial {W} host port timeout tunnel_host next.

(** ** The outside world

    Everything the program cannot decide by itself is an operation of
    [Network].  Each operation reads and advances a world state [W], so
    two calls with the same arguments may answer differently. *)

Class Network (W : Type) := {
  (** [socket.getaddrinfo(host, port, family, type)] *)
  os_getaddrinfo : string → Z → AddressFamily → SocketKind → W →
                   (fault + list addrinfo) * W;
  (** [socket.socket(af, socktype, proto)] *)
  os_socket : AddressFamily → SocketKind → Z → W → (fault + fd) * W;
  (** [sock.connect(sa)] under the timeout set on the socket *)
  os_connect : fd → sockaddr → W → option fault * W;
  (** [sock.settimeout(t)] *)
  os_settimeout : fd → Z → W → W;
  (** [sock.close()] *)
  os_close : fd → W → W;
  (** [HTTPConnection._tunnel()] on the connected socket *)
  lib_tunnel : fd → string → W → tunnel_answer * W;
  (** [SSLContext.wrap_socket(sock, server_hostname=...)] *)
  lib_wrap_socket : fd → string → W → wrap_answer * W;
  (** [urllib.request.Request(url, ...)]: the exception it raises for a
      string it does not take for a URL, [None] when it builds the
      request *)
  lib_new_request : string → option exception;
  (** what urllib does with [open(req, timeout=...)] *)
  lib_open : Request → Z → W → plan W;
  (** [repr] of a string *)
  py_repr : string → string;
  (** what the interpreter prints for an exception nobody caught *)
  py_traceback : exception → list string;
  (** the installed package version, or ["unknown"] (lines 46-49) *)
  __version__ : string
}.

(** ** What the configuration holds

    [tomllib] gives strings, integers, floats, booleans, dates, arrays
    and tables.  Of the value of a field the program asks two things
    only: whether it counts as true ([if update_url:]) and its text
    ([str], as [Request] and the f-strings take it).  A string is kept
    as it is, any other value as the pair of the two. *)
Inductive value :=
| Str (s : string)
| Other (truth : bool) (text : string).

(** [str(v)] *)
Definition value_str (v : value) : string :=
  match v with
  | Str s => s
  | Other _ text => text
  end.

(** What the loop finds in the sequence it iterates: a table, or an
    object of another type, which has no [get]. *)
Inductive element :=
| Table (fields : gmap string value)
| NotTable (type_name : string).

(** The value under a key of the top-level table: an array; a string,
    iterated character by character; a table, iterated key by key; or a
    number, boolean or date, which cannot be iterated. *)
Inductive toml :=
| Array (items : list element)
| Text (s : string)
| Subtable (keys : list string)
| Scalar (truth : bool) (type_name : string).

(** ** Outcome of one update (lines 111-114) *)

Inductive _Result := OK | HTTP_ERROR | CONN_ERROR.

Global Instance _Result_eq_dec : EqDecision _Result.
Proof. solve_decision. Defined.

(** One call of [_update] with what it returned. *)
Record Attempt := mkAttempt {
  at_url : string;
  at_domain : string;
  at_label : string;
  at_result : _Result
}.

(** What the [try] statement of [_update] leaves behind: a status, or
    the early return after a connection error. *)
Inductive tried :=
| Answered (status : option Z)
| Unreachable.

(** ** Program state and the monad of effects *)

Section Embedding.
Context {W : Type} {N : Network W}.

(** The running program sees: the world; the lines printed so far on
    each stream; the log of outside calls; [self.sock] of the connection
    object in use; and the log of finished update attempts. *)
Record State := mkState {
  world : W;
  stdout : list string;
  stderr : list string;
  calls : list event;
  self_sock : option sock_obj;
  attempts : list Attempt
}.

Definition init (w : W) : State := mkState w [] [] [] None [].

(** A computation either returns a value or propagates a raised
    exception; in both cases the effects done so far stay done. *)
Definition M (A : Type) : Type := State → (raised + A) * State.

Definition ret {A} (a : A) : M A := λ st, (inr a, st).

Definition bind {A B} (m : M A) (k : A → M B) : M B := λ st,
  match m st with
  | (inl e, st') => (inl e, st')
  | (inr a, st') => k a st'
  end.

Definition raise {A} (e : raised) : M A := λ st, (inl e, st).

(** [try: m  except BaseException as e: h e] *)
Definition try_except {A} (m : M A) (h : raised → M A) : M A := λ st,
  match m st with
  | (inl e, st') => h e st'
  | (inr a, st') => (inr a, st')
  end.

Notation "x <- m ;; k" := (bind m (λ x, k))
  (at level 100, m at next level, right associativity,
   format "'[v' x  <-  m  ;;  '/' k ']'").
Notation "m ;;; k" := (bind m (λ _, k))
  (at level 100, right associativity,
   format "'[v' m  ;;;  '/' k ']'").

(** The state after one more line on the output, resp. error, stream. *)
Definition out_line (s : string) (st : State) : State :=
  mkState (world st) (stdout st ++ [s]) (stderr st) (calls st)
          (self_sock st) (attempts st).

Definition err_line (s : string) (st : State) : State :=
  mkState (world st) (stdout st) (stderr st ++ [s]) (calls st)
          (self_sock st) (attempts st).

(** [print(s)] and [print(s, file=sys.stderr)] *)
Definition print (s : string) : M unit := λ st, (inr tt, out_line s st).

Definition print_stderr (s : string) : M unit := λ st, (inr tt, err_line s st).

(** [sys.exit(code)] *)
Definition sys_exit {A} (code : Z) : M A := raise (SystemExit code).

(** An outside call: let the world answer, log the call. *)
Definition outside_with {A} (ev : option A → event)
    (op : W → (exception + A) * W) : M A := λ st,
  let '(r, w) := op (world st) in
  let logged ev := mkState w (stdout st) (stderr st) (calls st ++ [ev])
                           (self_sock st) (attempts st) in
  match r with
  | inl e => (inl (Exception e), logged (ev None))
  | inr a => (inr a, logged (ev (Some a)))
  end.

Definition outside {A} (ev : event) (op : W → (exception + A) * W) : M A :=
  outside_with (λ _, ev) op.

(** Answers of the transport layer, as results of an outside call. *)
Definition faulty {A} (r : (fault + A) * W) : (exception + A) * W :=
  match r with
  | (inl f, w) => (inl (fault_exception f), w)
  | (inr a, w) => (inr a, w)
  end.

Definition lift_option (r : option fault * W) : (exception + unit) * W :=
  match r with
  | (Some f, w) => (inl (fault_exception f), w)
  | (None, w) => (inr tt, w)
  end.

Definition set_self_sock (s : option sock_obj) : M unit := λ st,
  (inr tt, mkState (world st) (stdout st) (stderr st) (calls st) s (attempts st)).

Definition get_self_sock : M (option sock_obj) := λ st, (inr (self_sock st), st).

Definition record_attempt (a : Attempt) : M unit := λ st,
  (inr tt, mkState (world st) (stdout st) (stderr st) (calls st)
                   (self_sock st) (attempts st ++ [a])).

(** *** The socket layer as the program calls it *)

Definition getaddrinfo (host : string) (port : Z) (af : AddressFamily)
    (ty : SocketKind) : M (list addrinfo) :=
  outside (EvGetaddrinfo host port af ty)
    (λ w, faulty (os_getaddrinfo host port af ty w)).

Definition socket (af : AddressFamily) (ty : SocketKind) (proto : Z) : M fd :=
  outside_with (EvSocket af ty proto) (λ w, faulty (os_socket af ty proto w)).

Definition sock_settimeout (s : fd) (t : Z) : M unit :=
  outside (EvSetTimeout s t) (λ w, (inr tt, os_settimeout s t w)).

Definition sock_connect (s : fd) (sa : sockaddr) : M unit :=
  outside (EvConnect s sa) (λ w, lift_option (os_connect s sa w)).

Definition sock_close (s : fd) : M unit :=
  outside (EvClose s) (λ w, (inr tt, os_close s w)).

(** [self.close()] of the connection: forget the socket and close it. *)
Definition close_connection (s : fd) : M unit :=
  set_self_sock None ;;; sock_close s.

Definition _tunnel (s : fd) (tunnel_host : string) : M unit :=
  answer <- outside (EvTunnel s tunnel_host)
              (λ w, let '(a, w') := lib_tunnel s tunnel_host w in (inr a, w')) ;;
  match answer with
  | TunnelOpen => ret tt
  | TunnelRefused code message =>
      close_connection s ;;;
      raise (Exception (OSError ("Tunnel connection failed: " +:+ pretty code +:+
                                 " " +:+ message)))
  | TunnelBroken f => raise (Exception (fault_exception f))
  end.

Definition wrap_socket (s : fd) (server_hostname : string) : M sock_obj :=
  answer <- outside (EvWrapSocket s server_hostname)
              (λ w, let '(a, w') := lib_wrap_socket s server_hostname w in (inr a, w')) ;;
  match answer with
  | Wrapped => ret (TLSSocket s server_hostname)
  | HandshakeFailed f => sock_close s ;;; raise (Exception (fault_exception f))
  | WrapRejected f => raise (Exception (fault_exception f))
  end.

(** Python truthiness of an optional string: [None] and the empty
    string are false. *)
Definition truthy (o : option string) : bool :=
  match o with
  | Some (String _ _) => true
  | _ => false
  end.

(** The same of what [entry.get(key)] gives. *)
Definition truthy_value (o : option value) : bool :=
  match o with
  | Some (Str s) => truthy (Some s)
  | Some (Other truth _) => truth
  | None => false
  end.

(** The text of a field, as [_update] uses it. *)
Definition text_of (o : option value) : string :=
  match o with
  | Some v => value_str v
  | None => EmptyString
  end.

(** ** The transport: [_ForcedAFHTTPSConnection] (lines 65-98) *)

Record HTTPSConnection := mkConnection {
  host : string;
  port : option Z;
  timeout : Z;
  _tunnel_host : option string;
  _address_family : AddressFamily
}.

(** [self.port or http.client.HTTPS_PORT] *)
Definition port_or_default (p : option Z) : Z :=
  match p with
  | Some n => if Z.eqb n 0 then HTTPS_PORT else n
  | None => HTTPS_PORT
  end.

Definition no_results_message (self : HTTPSConnection) : string :=
  "getaddrinfo returned no results for " +:+ py_repr (host self) +:+
  " in address family " +:+ af_name (_address_family self).

Definition connect (self : HTTPSConnection) : M unit :=
  let port := port_or_default (port self) in
  infos <- getaddrinfo (host self) port (_address_family self) SOCK_STREAM ;;
  match infos with
  | [] => raise (Exception (OSError (no_results_message self)))
  | AddrInfo af socktype proto _ sa :: _ =>
      sock <- socket af socktype proto ;;
      sock_settimeout sock (timeout self) ;;;
      try_except (sock_connect sock sa)
                 (λ e, sock_close sock ;;; raise e) ;;;
      if truthy (_tunnel_host self) then
        set_self_sock (Some (RawSocket sock)) ;;;
        _tunnel sock (default EmptyString (_tunnel_host self)) ;;;
        tls <- wrap_socket sock (default EmptyString (_tunnel_host self)) ;;
        set_self_sock (Some tls)
      else
        tls <- wrap_socket sock (host self) ;;
        set_self_sock (Some tls)
  end.

(** The two subclasses fix the class attribute [_address_family]. *)
Definition http_class : Type := string → option Z → Z → option string → HTTPSConnection.

Definition _ForcedAFHTTPSConnection : http_class :=
  λ host port timeout tunnel, mkConnection host port timeout tunnel AF_UNSPEC.
Definition _IPv4HTTPSConnection : http_class :=
  λ host port timeout tunnel, mkConnection host port timeout tunnel AF_INET.
Definition _IPv6HTTPSConnection : http_class :=
  λ host port timeout tunnel, mkConnection host port timeout tunnel AF_INET6.


(** ** urllib's side of the transport

    Running the library's plan for one [open]: its own steps are logged
    as it reports them; at a [Dial] the connection object is made, with
    no socket yet, and the program's [connect] runs. *)

Fixpoint run_plan (cls : http_class) (p : plan W) (st : State)
    : (raised + Response) * State :=
  match p with
  | Return resp => (inr resp, st)
  | Raise e => (inl (Exception e), st)
  | Act evs update next =>
      let w := update (world st) in
      run_plan cls (next w)
        (mkState w (stdout st) (stderr st) (calls st ++ evs)
                 (self_sock st) (attempts st))
  | Dial host port timeout tunnel_host next =>
      match connect (cls host port timeout tunnel_host)
                    (mkState (world st) (stdout st) (stderr st) (calls st)
                             None (attempts st)) with
      | (inl (SystemExit code), st') => (inl (SystemExit code), st')
      | (inl (Exception e), st') =>
          run_plan cls (next (inl e) (self_sock st') (world st')) st'
      | (inr _, st') =>
          run_plan cls (next (inr tt) (self_sock st') (world st')) st'
      end
  end.

(** An opener is what [open(req, timeout=...)] does. *)
Record OpenerDirector := mkOpener {
  open : Request → Z → M Response
}.

(** What a handler brings in is the connection class its [https_open]
    hands to [do_open]. *)
Record HTTPSHandler := mkHandler {
  https_class : http_class
}.

(** [urllib.request.build_opener(handler)] *)
Definition build_opener (handler : HTTPSHandler) : OpenerDirector :=
  mkOpener (λ req timeout st,
    run_plan (https_class handler) (lib_open req timeout (world st)) st).

(** ** Handlers and openers (lines 101-119) *)

Definition _IPv4HTTPSHandler : HTTPSHandler := mkHandler _IPv4HTTPSConnection.

Definition _IPv6HTTPSHandler : HTTPSHandler := mkHandler _IPv6HTTPSConnection.

Definition _make_opener (ipv6 : bool) : OpenerDirector :=
  let handler := if ipv6 then _IPv6HTTPSHandler else _IPv4HTTPSHandler in
  build_opener handler.

(** ** One update (lines 122-159)

    The request is built before the [try] statement, so what its
    constructor raises leaves [_update].  So does the [TypeError] of the
    comparison in line 140 when the response has no integer status.
    Leaving the [with] block closes the response; that has no part in
    what follows and is left out. *)

Definition new_request (url : string) (headers : list (string * string)) : M Request :=
  match lib_new_request url with
  | Some e => raise (Exception e)
  | None => ret (mkRequest url headers)
  end.

Definition _update (opener : OpenerDirector) (url domain label : string)
    (verbose : bool) : M _Result :=
  req <- new_request url [("User-Agent", "ydns-py/" +:+ __version__)] ;;
  got <- try_except
      (resp <- open opener req TIMEOUT ;;
       ret (Answered (status resp)))
      (λ e, match e with
            | Exception (HTTPError code _) => ret (Answered (Some code))
            | Exception e =>
                print_stderr (domain +:+ " (" +:+ label +:+ "): connection error: "
                              +:+ str_exception e) ;;;
                ret Unreachable
            | SystemExit _ => raise e
            end) ;;
  match got with
  | Unreachable => ret CONN_ERROR
  | Answered None =>
      raise (Exception (OtherException
        "'<=' not supported between instances of 'int' and 'NoneType'"))
  | Answered (Some status) =>
      if (200 <=? status)%Z && (status <? 300)%Z then
        (if verbose
         then print ("Updated " +:+ domain +:+ " (" +:+ label +:+ ") successfully.")
         else ret tt) ;;;
        ret OK
      else if (status =? 404)%Z then
        print_stderr (domain +:+ " (" +:+ label +:+
          "): update URL is invalid (404). Check your configuration.") ;;;
        ret HTTP_ERROR
      else if (status =? 400)%Z then
        print_stderr (domain +:+ " (" +:+ label +:+
          "): server rejected the request (400). You may not have a public "
          +:+ label +:+ " address.") ;;;
        ret HTTP_ERROR
      else
        print_stderr (domain +:+ " (" +:+ label +:+
          "): unexpected HTTP status " +:+ pretty status +:+ ".") ;;;
        ret HTTP_ERROR
  end.

(** ** The orchestrator: [main] from line 207 on

    Argument parsing, the search for the configuration file and the TOML
    parser come before; what reaches this part is the parsed arguments,
    the path of the file that was read and the sequence the loop
    iterates. *)

Record Namespace := mkArgs {
  config : option string;
  verbose : bool;
  strict : bool
}.

(** The two flags, in the order [(any_http_error, any_conn_error)]. *)
Definition flags : Type := bool * bool.

Definition note_result (result : _Result) (f : flags) : flags :=
  match result with
  | HTTP_ERROR => (true, snd f)
  | CONN_ERROR => (fst f, true)
  | OK => f
  end.

(** One call of [_update] from the loop, followed by the flag update of
    lines 225-228 (233-236).  The call and its result are also entered
    in the log of attempts. *)
Definition attempt (opener : OpenerDirector) (url domain label : string)
    (verbose : bool) (f : flags) : M flags :=
  result <- _update opener url domain label verbose ;;
  record_attempt (mkAttempt url domain label result) ;;;
  ret (note_result result f).

(** The body of [for entry in domains] (lines 221-242).  An entry that
    is no table fails at its first [entry.get]. *)
Definition main_loop_body (ipv4_opener ipv6_opener : OpenerDirector)
    (verbose : bool) (entry : element) (f : flags) : M flags :=
  match entry with
  | NotTable type_name =>
      raise (Exception (OtherException
        ("'" +:+ type_name +:+ "' object has no attribute 'get'")))
  | Table entry =>
      let domain := value_str (default (Str "<undefined>") (entry !! "domain")) in
      let update_url := entry !! "update_url" in
      f <- (if truthy_value update_url
            then attempt ipv4_opener (text_of update_url) domain "IPv4" verbose f
            else ret f) ;;
      let update_url_v6 := entry !! "update_url_v6" in
      f <- (if truthy_value update_url_v6
            then attempt ipv6_opener (text_of update_url_v6) domain "IPv6" verbose f
            else ret f) ;;
      (if negb (truthy_value update_url) && negb (truthy_value update_url_v6)
       then print_stderr ("No update URLs configured for " +:+ domain +:+
                          ", updates not attempted")
       else ret tt) ;;;
      ret f
  end.

Fixpoint main_loop (ipv4_opener ipv6_opener : OpenerDirector) (verbose : bool)
    (domains : list element) (f : flags) : M flags :=
  match domains with
  | [] => ret f
  | entry :: rest =>
      f <- main_loop_body ipv4_opener ipv6_opener verbose entry f ;;
      main_loop ipv4_opener ipv6_opener verbose rest f
  end.

Definition main (args : Namespace) (config_path : string)
    (domains : list element) : M unit :=
  match domains with
  | [] =>
      print_stderr ("No [[domains]] entries found in " +:+ config_path) ;;;
      sys_exit EX_NO_DOMAINS
  | _ :: _ =>
      let ipv4_opener := _make_opener false in
      let ipv6_opener := _make_opener true in
      f <- main_loop ipv4_opener ipv6_opener (verbose args) domains (false, false) ;;
      let '(any_http_error, any_conn_error) := f in
      if any_conn_error then sys_exit EX_CONNECTION_ERROR
      else if strict args && any_http_error then sys_exit EX_UPDATE_FAILED
      else ret tt
  end.

(** The status the process ends with: the code given to [sys.exit], 0
    when [main] returns, 1 when an exception is left uncaught. *)
Definition exit_status (r : raised + unit) : Z :=
  match r with
  | inr _ => 0
  | inl (SystemExit code) => code
  | inl (Exception _) => 1
  end.

(** When [main] is over the interpreter ends the process: with the
    status above and, for an exception nobody caught, after printing its
    traceback on the error stream. *)
Definition interpreter_exit (r : raised + unit) (st : State) : Z * State :=
  (exit_status r,
   match r with
   | inl (Exception e) =>
       mkState (world st) (stdout st) (stderr st ++ py_traceback e) (calls st)
               (self_sock st) (attempts st)
   | _ => st
   end).

End Embedding.

Arguments State W : clear implicits.
Arguments M W A : clear implicits.

(** ** A scripted world, to run the program on concrete inputs

    The world state is the next free descriptor and the descriptors still
    open; the answers of resolver, peer, proxy, TLS library and server
    are fixed by a script, and so is the way the library takes for a
    URL.  The library part does what urllib does on the three ways: a
    URL whose scheme no handler serves is refused; a URL served by a
    stock handler ([http:]) is fetched by the library itself, which
    resolves the host for an unspecified family; an [https:] URL goes to
    the program's handler, which dials once, passes an [OSError] of
    [connect] on as [URLError], closes what the connection still holds
    when [connect] failed, and closes the socket once it has the
    response.  [Request] refuses a string without a scheme; the strings
    of the samples have no blanks, brackets or fragment for it to
    strip.  Of what the interpreter prints for an exception nobody
    caught, the first line and the text of the exception are kept. *)

Inductive Route :=
| NoHandler (scheme : string)
| Stock (host : string) (port : Z)
| Https (host : string) (port : option Z) (tunnel_host : option string).

Record Script := mkScript {
  sc_resolve : string → AddressFamily → fault + list addrinfo;
  sc_connect : option fault;
  sc_tunnel : tunnel_answer;
  sc_wrap : wrap_answer;
  sc_reply : string → exception + option Z;
  sc_route : string → Route
}.

Record Sockets := mkSockets {
  next_fd : Z;
  open_fds : list Z
}.

Definition close_fd (s : Z) (w : Sockets) : Sockets :=
  mkSockets (next_fd w) (filter (λ x, x ≠ s) (open_fds w)).

(** [urllib.parse._splittype]: a scheme is a non-empty run of characters
    other than [/] and [:], followed by [:]. *)
Fixpoint has_scheme_from (seen : bool) (s : string) : bool :=
  match s with
  | EmptyString => false
  | String c rest =>
      if Ascii.eqb c ":"%char then seen
      else if Ascii.eqb c "/"%char then false
      else has_scheme_from true rest
  end.

Definition has_scheme (url : string) : bool := has_scheme_from false url.

(** [except OSError as err: raise URLError(err)] *)
Definition as_url_error (e : exception) : exception :=
  match e with
  | OSError msg => URLError msg
  | _ => e
  end.

Definition fd_of (s : sock_obj) : fd :=
  match s with
  | RawSocket s => s
  | TLSSocket s _ => s
  end.

Definition reply (sc : Script) (url : string) : plan Sockets :=
  match sc_reply sc url with
  | inl e => Raise e
  | inr code => Return (mkResponse code)
  end.

Definition urllib_plan (sc : Script) (req : Request) (timeout : Z)
    (w : Sockets) : plan Sockets :=
  match sc_route sc (full_url req) with
  | NoHandler scheme => Raise (URLError ("unknown url type: " +:+ scheme))
  | Stock host port =>
      Act [EvGetaddrinfo host port AF_UNSPEC SOCK_STREAM; EvDefaultOpen (full_url req)]
          id (λ _, reply sc (full_url req))
  | Https EmptyString _ _ => Raise (URLError "no host given")
  | Https host port tunnel_host =>
      Dial host port timeout tunnel_host
        (λ outcome sock _,
           match outcome, sock with
           | inl e, Some s =>
               Act [EvClose (fd_of s)] (close_fd (fd_of s))
                   (λ _, Raise (as_url_error e))
           | inl e, None => Raise (as_url_error e)
           | inr _, Some s =>
               Act [EvExchange (full_url req); EvClose (fd_of s)] (close_fd (fd_of s))
                   (λ _, reply sc (full_url req))
           | inr _, None => Raise (OtherException "not connected")
           end)
  end.

Definition scripted (sc : Script) : Network Sockets := {|
  os_getaddrinfo host port af ty w := (sc_resolve sc host af, w);
  os_socket af ty proto w :=
    (inr (next_fd w), mkSockets (next_fd w + 1) (next_fd w :: open_fds w));
  os_connect s sa w := (sc_connect sc, w);
  os_settimeout s t w := w;
  os_close := close_fd;
  lib_tunnel s h w := (sc_tunnel sc, w);
  lib_wrap_socket s h w := (sc_wrap sc, w);
  lib_new_request url :=
    if has_scheme url then None
    else Some (OtherException ("unknown url type: '" +:+ url +:+ "'"));
  lib_open := urllib_plan sc;
  py_repr s := "'" +:+ s +:+ "'";
  py_traceback e := ["Traceback (most recent call last):"; str_exception e];
  __version__ := "unknown"
|}.

(** A direct route to [ydns.io], both families resolvable. *)
Definition direct : string → Route :=
  λ _, Https "ydns.io" None None.

Definition resolve_both : string → AddressFamily → fault + list addrinfo :=
  λ _ af,
    match af with
    | AF_INET6 => inr [AddrInfo AF_INET6 SOCK_STREAM 6 EmptyString ("2001:db8::1", 443)]
    | _ => inr [AddrInfo AF_INET SOCK_STREAM 6 EmptyString ("192.0.2.1", 443)]
    end.

(** Every update URL answers with the given status. *)
Definition answering (code : Z) : Script :=
  mkScript resolve_both None TunnelOpen Wrapped (λ _, inr (Some code)) direct.

(** The first sample URL is answered with 404, any other with 200. *)
Definition one_rejected : Script :=
  mkScript resolve_both None TunnelOpen Wrapped
           (λ u, if decide (u = "https://ydns.io/hosts/update/AL0ng")
                 then inr (Some 404) else inr (Some 200)) direct.

Definition w0 : Sockets := mkSockets 3 [].

(** The domain records of the configuration format are tables whose
    fields are strings; [record] is what the loop finds for one. *)
Definition record (entry : gmap string string) : element := Table (Str <$> entry).

(** Sample records, arguments and worlds. *)
Definition entry_v4 : gmap string string :=
  {[ "domain" := "example2.ydns.eu";
     "update_url" := "https://ydns.io/hosts/update/AL0ng" ]}.

Definition entry_both : gmap string string :=
  {[ "domain" := "example.ydns.eu";
     "update_url" := "https://ydns.io/hosts/update/Wh4t";
     "update_url_v6" := "https://ydns.io/hosts/update/IPv6" ]}.

Definition entry_blank_url : gmap string string :=
  {[ "domain" := "example3.ydns.eu"; "update_url" := EmptyString ]}.

Definition entry_half_blank : gmap string string :=
  {[ "domain" := "example5.ydns.eu"; "update_url" := EmptyString;
     "update_url_v6" := "https://ydns.io/hosts/update/IPv6" ]}.

Definition entry_nameless : gmap string string :=
  {[ "update_url_v6" := "https://ydns.io/hosts/update/IPv6" ]}.

Definition entry_empty : gmap string string := {[ "domain" := "example4.ydns.eu" ]}.

(** Records whose URL lacks the scheme. *)
Definition entry_schemeless : gmap string string :=
  {[ "domain" := "example6.ydns.eu"; "update_url" := "ydns.io/hosts/update/x" ]}.


(** Entries that stray from the format: a URL that is a number, and an
    array element that is a string. *)
Definition entry_numeric_url : element :=
  Table {[ "domain" := Str "example7.ydns.eu"; "update_url" := Other true "5" ]}.

Definition entry_string : element := NotTable "str".

Definition lax_args : Namespace := mkArgs None false false.
Definition strict_args : Namespace := mkArgs None false true.
Definition verbose_args : Namespace := mkArgs None true false.

(** No AAAA record: the resolver has nothing for IPv6. *)
Definition no_aaaa : Script :=
  mkScript (λ h af, if af is AF_INET6 then inr [] else resolve_both h af)
           None TunnelOpen Wrapped (λ _, inr (Some 200)) direct.

(** The peer refuses the connection. *)
Definition refusing : Script :=
  mkScript resolve_both (Some (OSFault "[Errno 111] Connection refused"))
           TunnelOpen Wrapped (λ _, inr (Some 200)) direct.

(** Requests go through a CONNECT proxy: one that makes the tunnel, one
    that never answers the tunnel request, one that refuses it. *)
Definition via_proxy : string → Route :=
  λ _, Https "proxy.example" (Some 3128) (Some "ydns.io").

(** An [http:] URL, which the stock handler serves, and a scheme
    nobody serves. *)
Definition plain_http : Script :=
  mkScript resolve_both None TunnelOpen Wrapped (λ _, inr (Some 200))
           (λ _, Stock "ydns.io" 80).

Definition unknown_scheme : Script :=
  mkScript resolve_both None TunnelOpen Wrapped (λ _, inr (Some 200))
           (λ _, NoHandler "gopher").

Definition tunnel_made : Script :=
  mkScript resolve_both None TunnelOpen Wrapped (λ _, inr (Some 200)) via_proxy.

Definition tunnel_times_out : Script :=
  mkScript resolve_both None (TunnelBroken (OSFault "timed out")) Wrapped
           (λ _, inr (Some 200)) via_proxy.

Definition tunnel_refused : Script :=
  mkScript resolve_both None (TunnelRefused 403 "Forbidden") Wrapped
           (λ _, inr (Some 200)) via_proxy.

(** The certificate of the server does not verify. *)
Definition handshake_fails : Script :=
  mkScript resolve_both None TunnelOpen
           (HandshakeFailed (OSFault "[SSL: CERTIFICATE_VERIFY_FAILED]"))
           (λ _, inr (Some 200)) direct.

Definition proxied : HTTPSConnection :=
  _IPv4HTTPSConnection "proxy.example" (Some 3128) TIMEOUT (Some "ydns.io").

Definition dialled_directly : HTTPSConnection :=
  _IPv6HTTPSConnection "ydns.io" None TIMEOUT None.

Definition sample_url : string := "https://ydns.io/hosts/update/AL0ng".

(** ** Vocabulary of the statements *)

Section Vocabulary.
Context {W : Type} {N : Network W}.

(** The HTTP status an [open] call ended with, if any: the status of the
    response returned, or the code of the [HTTPError] raised. *)
Definition obtained_status (r : raised + Response) : option Z :=
  match r with
  | inr resp => status resp
  | inl (Exception (HTTPError code _)) => Some code
  | inl _ => None
  end.

(** A computation that prints nothing, leaves the log of attempts alone
    and does not end the process. *)
Definition quiet {A} (m : M W A) : Prop :=
  ∀ (st : State W) r st', m st = (r, st') →
    stdout st' = stdout st ∧ stderr st' = stderr st ∧
    attempts st' = attempts st ∧ ∀ c, r ≠ inl (SystemExit c).

Definition quiet_opener (o : OpenerDirector) : Prop :=
  ∀ req t, quiet (open o req t).

(** The messages of [_update] and of the loop. *)
Definition success_line (domain label : string) : string :=
  "Updated " +:+ domain +:+ " (" +:+ label +:+ ") successfully.".

Definition invalid_line (domain label : string) : string :=
  domain +:+ " (" +:+ label +:+
  "): update URL is invalid (404). Check your configuration.".

Definition rejected_line (domain label : string) : string :=
  domain +:+ " (" +:+ label +:+
  "): server rejected the request (400). You may not have a public "
  +:+ label +:+ " address.".

Definition unexpected_line (domain label : string) (status : Z) : string :=
  domain +:+ " (" +:+ label +:+ "): unexpected HTTP status " +:+ pretty status +:+ ".".

Definition connection_line (domain label detail : string) : string :=
  domain +:+ " (" +:+ label +:+ "): connection error: " +:+ detail.

Definition no_urls_line (domain : string) : string :=
  "No update URLs configured for " +:+ domain +:+ ", updates not attempted".

(** A line is a diagnostic when it is one of the failure messages or the
    warning about a record without URLs. *)
Definition diagnostic (line : string) : Prop :=
  ∃ domain label,
    line = invalid_line domain label ∨
    line = rejected_line domain label ∨
    (∃ status, line = unexpected_line domain label status) ∨
    (∃ detail, line = connection_line domain label detail) ∨
    line = no_urls_line domain.

(** The request [_update] builds for a URL. *)
Definition request_for (url : string) : Request :=
  mkRequest url [("User-Agent", "ydns-py/" +:+ __version__)].

(** Which updates a record asks for: URL, domain and label of each, IPv4
    first.  A URL field asks for one when it holds a string with at
    least one character. *)
Definition domain_of (entry : gmap string string) : string :=
  default "<undefined>" (entry !! "domain").

Definition asked (o : option string) (domain label : string)
    : list (string * string * string) :=
  match o with
  | Some (String c u) => [(String c u, domain, label)]
  | _ => []
  end.

Definition planned_entry (entry : gmap string string) : list (string * string * string) :=
  asked (entry !! "update_url") (domain_of entry) "IPv4" ++
  asked (entry !! "update_url_v6") (domain_of entry) "IPv6".

Definition planned (domains : list (gmap string string)) : list (string * string * string) :=
  flat_map planned_entry domains.

Definition attempt_key (a : Attempt) : string * string * string :=
  (at_url a, at_domain a, at_label a).

(** Counting URL fields: those that are present, and those that hold a
    non-empty string. *)
Definition present (o : option string) : nat := if o is Some _ then 1 else 0.

Definition non_empty (o : option string) : nat :=
  match o with
  | Some (String _ _) => 1
  | _ => 0
  end.

Definition non_null_urls (domains : list (gmap string string)) : nat :=
  sum_list (map (λ e, present (e !! "update_url") + present (e !! "update_url_v6"))%nat domains).

Definition non_empty_urls (domains : list (gmap string string)) : nat :=
  sum_list (map (λ e, non_empty (e !! "update_url") + non_empty (e !! "update_url_v6"))%nat domains).

(** A record without any usable URL. *)
Definition no_urls (entry : gmap string string) : bool :=
  match planned_entry entry with
  | [] => true
  | _ => false
  end.

Definition is_ok (a : Attempt) : bool := bool_decide (at_result a = OK).
Definition is_http_error (a : Attempt) : bool := bool_decide (at_result a = HTTP_ERROR).
Definition is_conn_error (a : Attempt) : bool := bool_decide (at_result a = CONN_ERROR).

(** A record with the URL fields that hold the empty string removed. *)
Definition drop_blank (key : string) (entry : gmap string string) : gmap string string :=
  match entry !! key with
  | Some EmptyString => delete key entry
  | _ => entry
  end.

(** The events a call logged: what [calls] gained. *)
Definition logged (st st' : State W) (evs : list event) : Prop :=
  calls st' = calls st ++ evs.

Definition is_getaddrinfo (ev : event) : bool :=
  match ev with EvGetaddrinfo _ _ _ _ => true | _ => false end.

Definition is_connect (ev : event) : bool :=
  match ev with EvConnect _ _ => true | _ => false end.

Definition is_socket (ev : event) : bool :=
  match ev with EvSocket _ _ _ _ => true | _ => false end.

(** On failure, every socket the call created was also closed in it. *)
Definition closed_on_failure (st st' : State W) : Prop :=
  ∀ evs af ty proto s,
    logged st st' evs → EvSocket af ty proto (Some s) ∈ evs → EvClose s ∈ evs.

(** Resolution gave nothing to connect to: the resolver raised, or it
    returned the empty list. *)
Definition no_usable_results (r : fault + list addrinfo) : Prop :=
  match r with
  | inr (_ :: _) => False
  | _ => True
  end.

(** The exception [connect] raises in that case. *)
Definition resolution_fault (self : HTTPSConnection) (r : fault + list addrinfo) : exception :=
  match r with
  | inl f => fault_exception f
  | inr _ => OSError (no_results_message self)
  end.

(** The connection class of each opener, and the family it is pinned
    to. *)
Definition class_of (ipv6 : bool) : http_class :=
  if ipv6 then _IPv6HTTPSConnection else _IPv4HTTPSConnection.

Definition family_of (ipv6 : bool) : AddressFamily :=
  if ipv6 then AF_INET6 else AF_INET.

(** [connect] got as far as a connected socket [s], in the world [w]:
    the resolver returned at least one entry, a socket was created for
    the first and dialling its address succeeded. *)
Definition dialled (self : HTTPSConnection) (st : State W) (s : fd) (w : W) : Prop :=
  ∃ af ty proto name sa more w1 w2,
    os_getaddrinfo (host self) (port_or_default (port self)) (_address_family self)
      SOCK_STREAM (world st) = (inr (AddrInfo af ty proto name sa :: more), w1) ∧
    os_socket af ty proto w1 = (inr s, w2) ∧
    os_connect s sa (os_settimeout s (timeout self) w2) = (None, w).

(** The name [connect] gives the TLS library for the server: the tunnel
    host when there is one, else the host it dials. *)
Definition tls_name (self : HTTPSConnection) : string :=
  if truthy (_tunnel_host self) then default EmptyString (_tunnel_host self)
  else host self.

(** The world after a tunnel that was made, or after none was asked
    for. *)
Definition past_tunnel (self : HTTPSConnection) (s : fd) (w w' : W) : Prop :=
  if truthy (_tunnel_host self)
  then lib_tunnel s (tls_name self) w = (TunnelOpen, w')
  else w' = w.

(** What a stretch of the run added to the three logs: the attempts
    [new]; on the output stream one confirmation per successful attempt
    when verbose, nothing otherwise; on the error stream only
    diagnostics, one per failed attempt and [warnings] more. *)
Definition success_of (a : Attempt) : string :=
  success_line (at_domain a) (at_label a).

Definition failed (a : Attempt) : bool := negb (is_ok a).

Definition extends (v : bool) (st st' : State W) (new : list Attempt)
    (warnings : nat) : Prop :=
  attempts st' = attempts st ++ new ∧
  stdout st' = stdout st ++ (if v then map success_of (filter is_ok new) else []) ∧
  ∃ errs, stderr st' = stderr st ++ errs ∧ Forall diagnostic errs ∧
          length errs = (length (filter failed new) + warnings)%nat.

(** The flags after the attempts [new]. *)
Definition flags_after (f : flags) (new : list Attempt) : flags :=
  (fst f || existsb is_http_error new, snd f || existsb is_conn_error new).

Definition warnings_of (domains : list (gmap string string)) : nat :=
  length (filter no_urls domains).

(** The run was cut short by an exception nobody caught. *)
Definition aborted {A} (r : raised + A) : Prop := ∃ e, r = inl (Exception e).

(** How a stretch of the loop ended that was to make the attempts [plan]
    and give [m] warnings, started with the flags [f]: it returned the
    flags after the attempts [new], which are those of the plan, with
    all warnings given; or an exception cut it short after some first
    part of the plan.  It does not end the process itself. *)
Definition ended (f : flags) (new : list Attempt)
    (plan : list (string * string * string)) (n m : nat)
    (r : raised + flags) : Prop :=
  match r with
  | inr f' => f' = flags_after f new ∧ map attempt_key new = plan ∧ n = m
  | inl (Exception _) => map attempt_key new `prefix_of` plan ∧ (n ≤ m)%nat
  | inl (SystemExit _) => False
  end.

(** The state with another content of the output stream. *)
Definition with_stdout (out : list string) (st : State W) : State W :=
  mkState (world st) out (stderr st) (calls st) (self_sock st) (attempts st).

Definition mute (st : State W) : State W := with_stdout [] st.

(** A computation that neither reads nor writes the output stream. *)
Definition blind {A} (m : M W A) : Prop :=
  ∀ st out r st', m st = (r, st') → m (with_stdout out st) = (r, with_stdout out st').

Definition blind_opener (o : OpenerDirector) : Prop :=
  ∀ req t, blind (open o req t).

(** [m'] does on the muted state what [m] does, output stream apart. *)
Definition muted {A} (m m' : M W A) : Prop :=
  ∀ st r st', m st = (r, st') → m' (mute st) = (r, mute st').

End Vocabulary.

(** ** The start of [main]: finding and reading the configuration
    (lines 57-60 and 182-213)

    What [main] asks of the file system is an instance of [Files]: a path
    is the string [str] gives for it; [path_exists] is [Path.exists],
    which answers or raises ([PermissionError] on a directory that may
    not be searched, a name too long); [toml_load] is opening the file
    and [tomllib.load], which give the top-level table, whatever its
    keys hold, or raise. *)

Class Files := {
  (** [str(Path(s))] *)
  path_str : string → string;
  path_exists : string → exception + bool;
  toml_load : string → exception + gmap string toml;
  (** [Path("~/.config/ydns-py/config.toml").expanduser()] *)
  user_config : string
}.

Section Startup.
Context {W : Type} {N : Network W} {F : Files}.

Definition DEFAULT_CONFIG_PATHS : list string :=
  [user_config; "/etc/ydns-py.toml"].

(** The [for path in ...: if path.exists(): ... break] loop: the first
    path that exists, [None] when the loop runs into its [else]; an
    exception of [exists] ends it. *)
Fixpoint first_existing (paths : list string) : exception + option string :=
  match paths with
  | [] => inr None
  | path :: rest =>
      match path_exists path with
      | inl e => inl e
      | inr true => inr (Some path)
      | inr false => first_existing rest
      end
  end.

(** [", ".join(paths)] *)
Fixpoint join_paths (paths : list string) : string :=
  match paths with
  | [] => EmptyString
  | [path] => path
  | path :: rest => path +:+ ", " +:+ join_paths rest
  end.

(** Lines 182-198: the path of the configuration file to read. *)
Definition locate_config (args : Namespace) : M W string :=
  if truthy (config args) then
    let config_path := path_str (default EmptyString (config args)) in
    match path_exists config_path with
    | inl e => raise (Exception e)
    | inr true => ret config_path
    | inr false =>
        bind (print_stderr ("Config file not found: " +:+ config_path))
             (λ _, sys_exit EX_CONFIG_NOT_FOUND)
    end
  else
    match first_existing DEFAULT_CONFIG_PATHS with
    | inl e => raise (Exception e)
    | inr (Some path) => ret path
    | inr None =>
        bind (print_stderr ("Config file not found (searched: " +:+
                            join_paths DEFAULT_CONFIG_PATHS +:+ ")"))
             (λ _, sys_exit EX_CONFIG_NOT_FOUND)
    end.

(** Lines 200-205: reading and parsing it. *)
Definition load_config (config_path : string) : M W (gmap string toml) :=
  match toml_load config_path with
  | inr config => ret config
  | inl e =>
      bind (print_stderr ("Failed to read " +:+ config_path +:+ ": " +:+
                          str_exception e))
           (λ _, sys_exit EX_CONFIG_PARSE_ERROR)
  end.

(** [not domains]: the empty array, string and table, zero and
    [False] count as false. *)
Definition falsy (domains : toml) : bool :=
  match domains with
  | Array [] | Text EmptyString | Subtable [] | Scalar false _ => true
  | _ => false
  end.

(** What [for entry in domains] goes through: the items of an array,
    the characters of a string, the keys of a table; a scalar raises
    [TypeError]. *)
Definition iterate (domains : toml) : exception + list element :=
  match domains with
  | Array items => inr items
  | Text s => inr (replicate (String.length s) (NotTable "str"))
  | Subtable keys => inr (map (λ _, NotTable "str") keys)
  | Scalar _ type_name =>
      inl (OtherException ("'" +:+ type_name +:+ "' object is not iterable"))
  end.

(** [main] from line 182 on, with the parsed arguments: locate, load,
    take [config.get("domains", [])], leave with status 3 when it counts
    as false, and go on as [main] above does with what it holds. *)
Definition main_from_args (args : Namespace) : M W unit :=
  bind (locate_config args) (λ config_path,
  bind (load_config config_path) (λ config,
  let domains := default (Array []) (config !! "domains") in
  if falsy domains then main args config_path []
  else match iterate domains with
       | inl e => raise (Exception e)
       | inr items => main args config_path items
       end)).

End Startup.

(** A file system given by the paths that exist and what loading each
    gives; paths are kept as they are written. *)
Definition disk (present : list string)
    (content : string → exception + gmap string toml)
    (user : string) : Files := {|
  path_str s := s;
  path_exists p := inr (bool_decide (p ∈ present));
  toml_load := content;
  user_config := user
|}.

Definition home_config : string := "/home/u/.config/ydns-py/config.toml".

Definition sample_config : gmap string toml :=
  {[ "domains" := Array [record entry_both; record entry_v4] ]}.

(** ** Properties *)

Section Properties.
Context {W : Type} {N : Network W}.
Implicit Types (st : State W) (entry : gmap string string).

(** *** Quiet computations *)

Lemma quiet_ret {A} (a : A) : quiet (W := W) (ret a).
Proof. intros st r st' [= <- <-]. done. Qed.

Lemma quiet_raise {A} (e : exception) :
  quiet (W := W) (raise (A := A) (Exception e)).
Proof. intros st r st' [= <- <-]. done. Qed.

Lemma quiet_bind {A B} (m : M W A) (k : A → M W B) :
  quiet m → (∀ a, quiet (k a)) → quiet (bind m k).
Proof.
  intros Hm Hk st r st'. unfold bind.
  destruct (m st) as [[e|a] st1] eqn:E.
  - intros [= <- <-]. destruct (Hm _ _ _ E) as (? & ? & ? & Hne).
    repeat split; try done. intros c [= ->]. by destruct (Hne c).
  - intros E'. destruct (Hm _ _ _ E) as (<- & <- & <- & _).
    exact (Hk a _ _ _ E').
Qed.

Lemma quiet_try_except {A} (m : M W A) (h : raised → M W A) :
  quiet m → (∀ e, quiet (h (Exception e))) → quiet (try_except m h).
Proof.
  intros Hm Hh st r st'. unfold try_except.
  destruct (m st) as [[e|a] st1] eqn:E.
  - intros E'. destruct (Hm _ _ _ E) as (<- & <- & <- & Hne).
    destruct e as [e|c]; [exact (Hh e _ _ _ E') | by destruct (Hne c)].
  - intros [= <- <-]. exact (Hm _ _ _ E).
Qed.

Lemma quiet_outside_with {A} ev (op : W → (exception + A) * W) :
  quiet (outside_with ev op).
Proof.
  intros st r st'. unfold outside_with.
  destruct (op (world st)) as [[e|a] w]; intros [= <- <-]; done.
Qed.

Lemma quiet_outside {A} ev (op : W → (exception + A) * W) : quiet (outside ev op).
Proof. apply quiet_outside_with. Qed.

Lemma quiet_set_self_sock s : quiet (W := W) (set_self_sock s).
Proof. intros st r st' [= <- <-]. done. Qed.

Lemma quiet_get_self_sock : quiet (W := W) get_self_sock.
Proof. intros st r st' [= <- <-]. done. Qed.

Create HintDb quiet.
Hint Resolve quiet_ret quiet_raise quiet_outside quiet_outside_with quiet_set_self_sock
  quiet_get_self_sock : quiet.

Ltac quiet_steps :=
  repeat first
    [ apply quiet_bind; [| intros ?]
    | apply quiet_try_except; [| intros ?]
    | progress auto with quiet
    | match goal with
      | |- quiet (if ?b then _ else _) => destruct b
      | |- quiet (match ?x with _ => _ end) => destruct x
      end ].

Lemma quiet_connect self : quiet (connect self).
Proof.
  unfold connect, getaddrinfo, socket, sock_settimeout, sock_connect,
    _tunnel, wrap_socket, close_connection, sock_close.
  quiet_steps.
Qed.

Lemma quiet_run_plan cls (p : plan W) : quiet (run_plan cls p).
Proof.
  induction p as [resp | e | evs update next IH | h port t tunnel next IH];
    intros st r st'; simpl.
  - by intros [= <- <-].
  - by intros [= <- <-].
  - intros E. by destruct (IH _ _ _ _ E) as (? & ? & ? & ?).
  - destruct (connect _ _) as [[[e | c] | []] st1] eqn:Ec;
      destruct (quiet_connect _ _ _ _ Ec) as (Ho & He & Ha & Hne); simpl in *.
    + intros E. destruct (IH _ _ _ _ _ _ E) as (-> & -> & -> & ?). done.
    + by destruct (Hne c).
    + intros E. destruct (IH _ _ _ _ _ _ E) as (-> & -> & -> & ?). done.
Qed.

Lemma quiet_make_opener ipv6 : quiet_opener (_make_opener ipv6).
Proof. intros req t st. apply quiet_run_plan. Qed.

(** *** One update, by what the opener did *)

Lemma _update_rejected opener url domain label v st e :
  lib_new_request url = Some e →
  _update opener url domain label v st = (inl (Exception e), st).
Proof. intros H. unfold _update, new_request, bind. by rewrite H. Qed.

Lemma _update_with_status opener url domain label v st r st1 s :
  lib_new_request url = None →
  open opener (request_for url) TIMEOUT st = (r, st1) →
  obtained_status r = Some s →
  _update opener url domain label v st =
    if (200 <=? s)%Z && (s <? 300)%Z
    then (inr OK, if v then out_line (success_line domain label) st1 else st1)
    else if (s =? 404)%Z
    then (inr HTTP_ERROR, err_line (invalid_line domain label) st1)
    else if (s =? 400)%Z
    then (inr HTTP_ERROR, err_line (rejected_line domain label) st1)
    else (inr HTTP_ERROR, err_line (unexpected_line domain label s) st1).
Proof.
  unfold request_for, _update, new_request. intros -> Hopen Hs.
  unfold bind at 1. unfold ret at 1. unfold bind at 1. unfold try_except, bind.
  rewrite Hopen.
  assert (∀ X (b : bool) (m1 m2 : M W X) (x y : _ * State W),
             m1 st1 = x → m2 st1 = y → (if b then m1 else m2) st1 = if b then x else y)
    as Hif by (intros ? [] ? ? ? ?; auto).
  destruct r as [[[] |] | [[s' |]]]; simpl in Hs; try discriminate;
    injection Hs as ->; simpl;
    repeat (apply Hif; [| try reflexivity]); try reflexivity;
    destruct v; reflexivity.
Qed.

Lemma _update_without_status opener url domain label v st e st1 :
  lib_new_request url = None →
  open opener (request_for url) TIMEOUT st = (inl (Exception e), st1) →
  obtained_status (inl (Exception e)) = None →
  _update opener url domain label v st =
    (inr CONN_ERROR, err_line (connection_line domain label (str_exception e)) st1).
Proof.
  unfold request_for, _update, new_request. intros -> Hopen Hs.
  unfold bind at 1. unfold ret at 1. unfold bind at 1. unfold try_except, bind.
  rewrite Hopen.
  destruct e; simpl in Hs; try discriminate; reflexivity.
Qed.

Lemma _update_no_status opener url domain label v st st1 :
  lib_new_request url = None →
  open opener (request_for url) TIMEOUT st = (inr (mkResponse None), st1) →
  _update opener url domain label v st =
    (inl (Exception (OtherException
       "'<=' not supported between instances of 'int' and 'NoneType'")), st1).
Proof.
  unfold request_for, _update, new_request. intros -> Hopen.
  unfold bind at 1. unfold ret at 1. unfold bind at 1. unfold try_except, bind.
  by rewrite Hopen.
Qed.

(** *** Accumulating effects *)

Lemma extends_refl v st : extends v st st [] 0.
Proof.
  split; [| split].
  - by rewrite app_nil_r.
  - destruct v; by rewrite app_nil_r.
  - exists []. by rewrite app_nil_r.
Qed.

Lemma extends_trans v st st1 st2 n1 n2 w1 w2 :
  extends v st st1 n1 w1 → extends v st1 st2 n2 w2 →
  extends v st st2 (n1 ++ n2) (w1 + w2).
Proof.
  intros (Ha1 & Ho1 & e1 & He1 & Hd1 & Hl1) (Ha2 & Ho2 & e2 & He2 & Hd2 & Hl2).
  split; [| split].
  - by rewrite Ha2, Ha1, app_assoc.
  - rewrite Ho2, Ho1, <- app_assoc. f_equal.
    destruct v; [| done]. by rewrite filter_app, map_app.
  - exists (e1 ++ e2). split; [| split].
    + by rewrite He2, He1, app_assoc.
    + by apply Forall_app.
    + rewrite length_app, Hl1, Hl2, filter_app, length_app. lia.
Qed.

Lemma flags_after_nil f : flags_after f [] = f.
Proof. destruct f as [[] []]; reflexivity. Qed.

Lemma flags_after_app f n1 n2 :
  flags_after (flags_after f n1) n2 = flags_after f (n1 ++ n2).
Proof.
  unfold flags_after. simpl. rewrite !existsb_app, !orb_assoc. reflexivity.
Qed.

Lemma flags_after_one f a :
  note_result (at_result a) f = flags_after f [a].
Proof.
  unfold flags_after, note_result, is_http_error, is_conn_error. simpl.
  destruct f as [h c], (at_result a); simpl;
    rewrite ?orb_false_r, ?orb_true_r; reflexivity.
Qed.

Lemma _update_effects opener url domain label v st :
  quiet_opener opener →
  (∃ res st', _update opener url domain label v st = (inr res, st') ∧
    attempts st' = attempts st ∧
    stdout st' = stdout st ++
      (if v && bool_decide (res = OK) then [success_line domain label] else []) ∧
    ∃ errs, stderr st' = stderr st ++ errs ∧ Forall diagnostic errs ∧
            length errs = if bool_decide (res = OK) then 0%nat else 1%nat) ∨
  (∃ e st', _update opener url domain label v st = (inl (Exception e), st') ∧
    attempts st' = attempts st ∧ stdout st' = stdout st ∧ stderr st' = stderr st).
Proof.
  intros Hq.
  destruct (lib_new_request url) as [e |] eqn:Hreq.
  { right. exists e, st. by rewrite (_update_rejected _ _ _ _ _ _ _ Hreq). }
  destruct (open opener (request_for url) TIMEOUT st) as [r st1] eqn:E.
  destruct (Hq _ _ _ _ _ E) as (Ho & He & Ha & Hne).
  assert (∀ line, diagnostic line →
            ∃ errs, stderr (err_line line st1) = stderr st ++ errs ∧
                    Forall diagnostic errs ∧ length errs = 1%nat) as Herr.
  { intros line Hd. exists [line]. simpl. rewrite He. by repeat constructor. }
  destruct (obtained_status r) as [s|] eqn:Hs.
  - left. rewrite (_update_with_status _ _ _ _ _ _ _ _ _ Hreq E Hs).
    destruct (_ && _).
    { exists OK. eexists. split; [done |]. rewrite andb_true_r.
      destruct v; simpl; rewrite ?Ho, ?He, ?Ha, ?app_nil_r; repeat split; try done;
        exists []; by rewrite app_nil_r. }
    assert (∀ line, diagnostic line →
      ∃ res st', (@inr raised _ HTTP_ERROR, err_line line st1) = (inr res, st') ∧
        attempts st' = attempts st ∧
        stdout st' = stdout st ++
          (if v && bool_decide (res = OK) then [success_line domain label] else []) ∧
        ∃ errs, stderr st' = stderr st ++ errs ∧ Forall diagnostic errs ∧
                length errs = if bool_decide (res = OK) then 0%nat else 1%nat) as Hrej.
    { intros line Hd. exists HTTP_ERROR. eexists. split; [done |].
      rewrite andb_false_r. simpl. rewrite Ho, Ha, app_nil_r.
      repeat split; try done. by apply Herr. }
    destruct (_ =? 404)%Z; [| destruct (_ =? 400)%Z]; apply Hrej;
      exists domain, label; eauto 7.
  - destruct r as [[e | c] | [[s |]]]; [| by destruct (Hne c) | done |].
    + left. rewrite (_update_without_status _ _ _ _ _ _ _ _ Hreq E Hs).
      exists CONN_ERROR. eexists. split; [done |].
      rewrite andb_false_r. simpl. rewrite Ho, Ha, app_nil_r.
      repeat split; try done. apply Herr. exists domain, label. eauto 7.
    + right. rewrite (_update_no_status _ _ _ _ _ _ _ Hreq E). by eexists _, st1.
Qed.

Lemma attempt_effects opener url domain label v f st :
  quiet_opener opener →
  (∃ a st', attempt opener url domain label v f st = (inr (flags_after f [a]), st') ∧
    attempt_key a = (url, domain, label) ∧ extends v st st' [a] 0) ∨
  (∃ e st', attempt opener url domain label v f st = (inl (Exception e), st') ∧
    extends v st st' [] 0).
Proof.
  intros Hq. unfold attempt, bind.
  destruct (_update_effects opener url domain label v st Hq)
    as [(res & st1 & -> & Ha & Ho & errs & He & Hd & Hl) | (e & st1 & -> & Ha & Ho & He)].
  - left. exists (mkAttempt url domain label res). eexists.
    split; [| split; [done |]].
    { unfold record_attempt, ret. simpl.
      by rewrite <- (flags_after_one f (mkAttempt url domain label res)). }
    split; [| split]; simpl.
    + by rewrite Ha.
    + rewrite Ho. f_equal. unfold is_ok, success_of. simpl.
      destruct v, res; reflexivity.
    + exists errs. rewrite He. repeat split; try done.
      rewrite Hl. unfold failed, is_ok. simpl. by destruct res.
  - right. exists e, st1. split; [done |].
    split; [by rewrite Ha, app_nil_r | split].
    + rewrite Ho. by destruct v; rewrite app_nil_r.
    + exists []. by rewrite He, app_nil_r.
Qed.

Lemma truthy_asked (o : option string) (domain label : string) :
  asked o domain label =
    if truthy o then [(default EmptyString o, domain, label)] else [].
Proof. by destruct o as [[| c u] |]. Qed.

Lemma truthy_non_empty (o : option string) :
  non_empty o = if truthy o then 1%nat else 0%nat.
Proof. by destruct o as [[| c u] |]. Qed.

Lemma no_urls_truthy entry :
  no_urls entry =
    negb (truthy (entry !! "update_url")) && negb (truthy (entry !! "update_url_v6")).
Proof.
  unfold no_urls, planned_entry. rewrite !truthy_asked.
  by destruct (truthy (entry !! "update_url")), (truthy (entry !! "update_url_v6")).
Qed.

Lemma extends_warning v st st' new domain :
  extends v st st' new 0 →
  extends v st (err_line (no_urls_line domain) st') new 1.
Proof.
  intros (Ha & Ho & errs & He & Hd & Hl).
  split; [done | split; [done |]].
  exists (errs ++ [no_urls_line domain]). simpl. rewrite He, app_assoc.
  split; [done | split].
  - apply Forall_app. split; [done |]. repeat constructor.
    exists domain, EmptyString. eauto 7.
  - rewrite length_app, Hl. simpl. lia.
Qed.

(** For a record of the format the loop body reads its fields as the
    strings they are. *)
Lemma main_loop_body_record o4 o6 v entry f :
  main_loop_body o4 o6 v (record entry) f =
    (let domain := default "<undefined>" (entry !! "domain") in
     let update_url := entry !! "update_url" in
     bind (if truthy update_url
           then attempt o4 (default EmptyString update_url) domain "IPv4" v f
           else ret f) (λ f,
     let update_url_v6 := entry !! "update_url_v6" in
     bind (if truthy update_url_v6
           then attempt o6 (default EmptyString update_url_v6) domain "IPv6" v f
           else ret f) (λ f,
     bind (if negb (truthy update_url) && negb (truthy update_url_v6)
           then print_stderr ("No update URLs configured for " +:+ domain +:+
                              ", updates not attempted")
           else ret tt) (λ _, ret f)))).
Proof.
  unfold main_loop_body, record. rewrite !lookup_fmap.
  by destruct (entry !! "domain"), (entry !! "update_url"),
       (entry !! "update_url_v6").
Qed.

Lemma main_loop_body_effects o4 o6 v entry f st :
  quiet_opener o4 → quiet_opener o6 →
  ∃ new n r st',
    main_loop_body o4 o6 v (record entry) f st = (r, st') ∧
    extends v st st' new n ∧
    ended f new (planned_entry entry) n (if no_urls entry then 1 else 0) r.
Proof.
  intros H4 H6. rewrite no_urls_truthy, main_loop_body_record.
  cbv zeta. unfold planned_entry. rewrite !truthy_asked. fold (domain_of entry).
  set (d := domain_of entry).
  set (u4 := default EmptyString (entry !! "update_url")).
  set (u6 := default EmptyString (entry !! "update_url_v6")).
  unfold bind at 1.
  destruct (truthy (entry !! "update_url")) eqn:T4.
  - destruct (attempt_effects o4 u4 d "IPv4" v f st H4)
      as [(a & st1 & -> & K1 & E1) | (e & st1 & -> & E1)].
    2:{ exists [], 0%nat. eexists _, st1. split; [done | split; [done |]].
        simpl. split; [apply prefix_nil | lia]. }
    unfold bind at 1.
    destruct (truthy (entry !! "update_url_v6")) eqn:T6.
    + destruct (attempt_effects o6 u6 d "IPv6" v (flags_after f [a]) st1 H6)
        as [(a' & st2 & -> & K2 & E2) | (e & st2 & -> & E2)].
      * exists [a; a'], 0%nat. eexists _, st2. simpl. unfold bind, ret. simpl.
        split; [done | split].
        -- exact (extends_trans _ _ _ _ _ _ _ _ E1 E2).
        -- rewrite flags_after_app. simpl. by rewrite K1, K2.
      * exists [a], 0%nat. eexists _, st2. split; [done | split].
        -- exact (extends_trans _ _ _ _ _ _ _ _ E1 E2).
        -- simpl. rewrite K1. split; [| lia]. by exists [(u6, d, "IPv6")].
    + exists [a], 0%nat. eexists _, st1. unfold bind, ret. simpl.
      split; [done | split; [done |]]. simpl. by rewrite K1.
  - unfold ret at 1. unfold bind at 1.
    destruct (truthy (entry !! "update_url_v6")) eqn:T6.
    + destruct (attempt_effects o6 u6 d "IPv6" v f st H6)
        as [(a' & st2 & -> & K2 & E2) | (e & st2 & -> & E2)].
      * exists [a'], 0%nat. eexists _, st2. unfold bind, ret. simpl.
        split; [done | split; [done |]]. simpl. by rewrite K2.
      * exists [], 0%nat. eexists _, st2. split; [done | split; [done |]].
        simpl. split; [apply prefix_nil | lia].
    + exists [], 1%nat. eexists _, (err_line (no_urls_line d) st).
      unfold bind, ret, print_stderr. simpl.
      split; [done | split].
      * apply extends_warning, extends_refl.
      * repeat split; try done. by destruct f as [[] []].
Qed.

Lemma ended_exception_weaken f new plan plan' n m m' e :
  ended f new plan n m (inl (Exception e)) → (m ≤ m')%nat →
  ended f new (plan ++ plan') n m' (inl (Exception e)).
Proof.
  intros [Hp Hn] Hm. split; [by apply prefix_app_r | lia].
Qed.

Lemma main_loop_effects o4 o6 v domains f st :
  quiet_opener o4 → quiet_opener o6 →
  ∃ new n r st',
    main_loop o4 o6 v (record <$> domains) f st = (r, st') ∧
    extends v st st' new n ∧
    ended f new (planned domains) n (warnings_of domains) r.
Proof.
  intros H4 H6. revert f st.
  induction domains as [| entry rest IH]; intros f st.
  - exists [], 0%nat. eexists _, st. split; [done | split; [apply extends_refl |]].
    simpl. by rewrite flags_after_nil.
  - rewrite fmap_cons. cbn [main_loop]. unfold bind at 1.
    assert (warnings_of (entry :: rest) =
            ((if no_urls entry then 1 else 0) + warnings_of rest)%nat) as Hw.
    { unfold warnings_of. rewrite filter_cons. by destruct (no_urls entry). }
    destruct (main_loop_body_effects o4 o6 v entry f st H4 H6)
      as (n1 & k1 & r1 & st1 & -> & E1 & D1).
    destruct r1 as [[e | c] | f1]; [| done |].
    + exists n1, k1. eexists _, st1. split; [done | split; [done |]].
      unfold planned. cbn [flat_map]. rewrite Hw.
      apply (ended_exception_weaken _ _ _ _ _ _ _ _ D1). lia.
    + destruct D1 as (-> & K1 & ->).
      destruct (IH (flags_after f n1) st1) as (n2 & k2 & r2 & st2 & -> & E2 & D2).
      exists (n1 ++ n2), ((if no_urls entry then 1 else 0) + k2)%nat.
      eexists _, st2. split; [done | split].
      * exact (extends_trans _ _ _ _ _ _ _ _ E1 E2).
      * unfold planned in *. cbn [flat_map]. rewrite Hw.
        destruct r2 as [[e | c] | f2]; [| done |]; cbn [ended] in *;
          rewrite map_app, K1.
        -- destruct D2 as [Hp Hn]. split; [by apply prefix_app | lia].
        -- destruct D2 as (-> & K2 & ->). by rewrite flags_after_app, K2.
Qed.

(** *** The whole run *)

Lemma main_effects (args : Namespace) (config_path : string) domains (w : W) :
  domains ≠ [] →
  ∃ new n r st',
    main args config_path (record <$> domains) (init w) = (r, st') ∧
    extends (verbose args) (init w) st' new n ∧
    ((aborted r ∧ map attempt_key new `prefix_of` planned domains ∧
      (n ≤ warnings_of domains)%nat) ∨
     (r = (if existsb is_conn_error new then inl (SystemExit EX_CONNECTION_ERROR)
           else if strict args && existsb is_http_error new
                then inl (SystemExit EX_UPDATE_FAILED)
                else inr tt) ∧
      map attempt_key new = planned domains ∧ n = warnings_of domains)).
Proof.
  intros Hne. destruct domains as [| entry rest]; [done |].
  unfold main. rewrite fmap_cons. cbv beta iota zeta. rewrite <- fmap_cons.
  remember (entry :: rest) as ds eqn:Hds. clear Hds.
  destruct (main_loop_effects (_make_opener false) (_make_opener true)
              (verbose args) ds (false, false) (init w)
              (quiet_make_opener false) (quiet_make_opener true))
    as (new & n & r & st' & Hrun & Hext & Hend).
  unfold bind. rewrite Hrun.
  destruct r as [[e | c] | f']; [| done |].
  - exists new, n. eexists _, st'. split; [done | split; [done |]].
    left. destruct Hend. split; [by exists e | done].
  - destruct Hend as (-> & Hplan & ->). unfold flags_after. simpl.
    exists new, (warnings_of ds). eexists _, st'.
    split; [| split; [done | right; split; [reflexivity | done]]].
    destruct (existsb is_conn_error new); [done |].
    destruct (strict args), (existsb is_http_error new); done.
Qed.

Lemma planned_length domains : length (planned domains) = non_empty_urls domains.
Proof.
  unfold planned, non_empty_urls.
  induction domains as [| entry rest IH]; simpl; [done |].
  rewrite length_app, IH. f_equal.
  unfold planned_entry. rewrite length_app, !truthy_asked, !truthy_non_empty.
  destruct (truthy (entry !! "update_url")), (truthy (entry !! "update_url_v6")); done.
Qed.


Lemma extends_from_init v (w : W) st' new n :
  extends v (init w) st' new n →
  attempts st' = new ∧
  stdout st' = (if v then map success_of (filter is_ok new) else []) ∧
  Forall diagnostic (stderr st') ∧
  length (stderr st') = (length (filter failed new) + n)%nat.
Proof.
  intros (Ha & Ho & errs & He & Hd & Hl). simpl in *.
  by rewrite Ha, Ho, He.
Qed.

(** C2, as amended.  The attempts of a run are, in the order made,
    a first part of the updates the records ask for through their
    non-empty URL fields, record by record in sequence order, IPv4
    before IPv6, whatever the world answers to any of them; and they are
    all of them, as many as the non-empty URL fields, in every run that
    no exception nobody caught cuts short. *)
Theorem attempts_follow_configuration (args : Namespace) (config_path : string)
    (domains : list (gmap string string)) (w : W) :
  domains ≠ [] →
  map attempt_key (attempts (main args config_path (record <$> domains) (init w)).2)
    `prefix_of` planned domains ∧
  (¬ aborted (main args config_path (record <$> domains) (init w)).1 →
   map attempt_key (attempts (main args config_path (record <$> domains) (init w)).2)
     = planned domains ∧
   length (attempts (main args config_path (record <$> domains) (init w)).2)
     = non_empty_urls domains).
Proof.
  intros Hne.
  destruct (main_effects args config_path domains w Hne)
    as (new & n & r & st' & -> & Hext & Hend).
  destruct (extends_from_init _ _ _ _ _ Hext) as (Ha & _). simpl. rewrite Ha.
  destruct Hend as [(Hab & Hp & _) | (-> & Hplan & _)].
  - split; [done |]. by intros [].
  - split; [by rewrite Hplan |]. intros _. split; [done |].
    by rewrite <- planned_length, <- Hplan, length_map.
Qed.

(** C8. In every run the output stream holds the success confirmations
    of the successful attempts when verbose mode is on and nothing
    otherwise.  What the program writes on the error stream are
    diagnostics only, one for each failed attempt and one for each record
    without URLs it came to: for each such record of the configuration
    unless an exception nobody caught cut the run short; the interpreter
    then adds its traceback, to the error stream.  So a run without
    verbose mode that is not cut short, in which every record has a URL
    and every attempt succeeds, writes nothing to either stream. *)
Theorem streams_of_a_run (args : Namespace) (config_path : string)
    (domains : list (gmap string string)) (w : W) :
  domains ≠ [] →
  let r := (main args config_path (record <$> domains) (init w)).1 in
  let st := (main args config_path (record <$> domains) (init w)).2 in
  let final := (interpreter_exit r st).2 in
  stdout st =
    (if verbose args then map success_of (filter is_ok (attempts st)) else []) ∧
  Forall diagnostic (stderr st) ∧
  (∃ n, length (stderr st) = (length (filter failed (attempts st)) + n)%nat ∧
        (n ≤ warnings_of domains)%nat ∧
        (¬ aborted r → n = warnings_of domains)) ∧
  stdout final = stdout st ∧
  stderr final =
    stderr st ++ (match r with inl (Exception e) => py_traceback e | _ => [] end) ∧
  (verbose args = false → ¬ aborted r → forallb is_ok (attempts st) = true →
   warnings_of domains = 0%nat → stdout final = [] ∧ stderr final = []).
Proof.
  intros Hne.
  destruct (main_effects args config_path domains w Hne)
    as (new & n & r & st' & -> & Hext & Hend).
  destruct (extends_from_init _ _ _ _ _ Hext) as (Ha & Ho & Hd & Hl).
  cbn [fst snd].
  assert (stdout (interpreter_exit r st').2 = stdout st') as Hso.
  { unfold interpreter_exit. by destruct r as [[] |]. }
  assert (stderr (interpreter_exit r st').2 =
          stderr st' ++ match r with inl (Exception e) => py_traceback e | _ => [] end)
    as Hse.
  { unfold interpreter_exit. destruct r as [[] |]; simpl; by rewrite ?app_nil_r. }
  rewrite Ha. split; [done | split; [done |]].
  assert (¬ aborted r → n = warnings_of domains) as Hn.
  { destruct Hend as [(Hab & _) | (_ & _ & ->)]; [by intros [] | done]. }
  split.
  { exists n. split; [done | split; [| done]].
    destruct Hend as [(_ & _ & ?) | (_ & _ & ->)]; [done | lia]. }
  split; [done | split; [done |]].
  intros Hv Hnab Hall Hw. rewrite Hso, Hse, Ho, Hv. split; [done |].
  assert (stderr st' = []) as ->.
  { apply length_zero_iff_nil. rewrite Hl, (Hn Hnab), Hw.
    assert (filter failed new = []) as ->; [| done].
    clear -Hall. induction new as [| a new IH]; [done |].
    simpl in Hall. apply andb_true_iff in Hall as [Hok Hall].
    rewrite filter_cons_False; [auto |].
    unfold failed. rewrite Hok. simpl. tauto. }
  destruct r as [[e | c] |]; [| done | done].
  destruct Hnab. by exists e.
Qed.

(** *** The transport *)

Ltac run_connect :=
  unfold connect, getaddrinfo, socket, sock_settimeout, sock_connect,
    _tunnel, wrap_socket, close_connection, sock_close, outside, outside_with,
    bind, try_except, raise, set_self_sock, lift_option, faulty, ret;
  repeat (simpl; case_match; simplify_eq); simpl in *; simplify_eq;
  rewrite <- ?app_assoc; simpl.

Ltac not_in_list H :=
  repeat (apply elem_of_cons in H as [H | H]; [discriminate |]);
  by apply elem_of_nil in H.

Lemma connect_log self st :
  ∃ rest,
    logged st (connect self st).2
      (EvGetaddrinfo (host self) (port_or_default (port self))
         (_address_family self) SOCK_STREAM :: rest) ∧
    Forall (λ ev, is_getaddrinfo ev = false) rest ∧
    (∀ af ty proto s, EvSocket af ty proto s ∈ rest →
       ∃ name sa more w,
         os_getaddrinfo (host self) (port_or_default (port self))
           (_address_family self) SOCK_STREAM (world st)
         = (inr (AddrInfo af ty proto name sa :: more), w)).
Proof.
  unfold logged. run_connect.
  all: eexists; split; [reflexivity |]; split; [by repeat constructor |].
  all: intros af' ty' proto' s' Hin.
  all: repeat (apply elem_of_cons in Hin as [Hin | Hin];
               [try discriminate; injection Hin as -> -> -> ->; eauto |]).
  all: by apply elem_of_nil in Hin.
Qed.

Lemma closed_on_failure_by_log st st' evs :
  logged st st' evs →
  (∀ af ty proto s, EvSocket af ty proto (Some s) ∈ evs → EvClose s ∈ evs) →
  closed_on_failure st st'.
Proof.
  unfold logged. intros Hlog H evs' af ty proto s Hlog' Hin.
  unfold logged in Hlog'. rewrite Hlog in Hlog'. apply app_inv_head in Hlog'.
  subst evs'. eauto.
Qed.

(** C4. A connection of the IPv4 (IPv6) class resolves its host exactly
    once in every call of [connect], asking for that family and for
    stream sockets, and a socket it creates is one for the first entry
    of that resolution.  When the resolver raises or returns no result,
    [connect] raises without any further call: no socket is created, no
    second resolution is tried.  And the update attempt whose opener
    passes that exception on, as it is or as a [URLError], ends as
    [CONN_ERROR] with the connection-error message. *)
Theorem forced_family_resolution (ipv6 : bool) (h : string) (p : option Z)
    (t : option string) (timeout : Z) :
  let self := class_of ipv6 h p timeout t in
  let ev := EvGetaddrinfo h (port_or_default p) (family_of ipv6) SOCK_STREAM in
  (∀ st0, ∃ rest, logged st0 (connect self st0).2 (ev :: rest) ∧
      Forall (λ e, is_getaddrinfo e = false) rest ∧
      ∀ af ty proto s, EvSocket af ty proto s ∈ rest →
        ∃ name sa more w,
          os_getaddrinfo h (port_or_default p) (family_of ipv6) SOCK_STREAM (world st0)
          = (inr (AddrInfo af ty proto name sa :: more), w)) ∧
  (∀ st r w',
     os_getaddrinfo h (port_or_default p) (family_of ipv6) SOCK_STREAM (world st)
       = (r, w') →
     no_usable_results r →
     ∃ st', connect self st = (inl (Exception (resolution_fault self r)), st') ∧
            logged st st' [ev]) ∧
  (∀ r opener (url domain label : string) (v : bool) st st1 e',
     no_usable_results r →
     e' = resolution_fault self r ∨ e' = as_url_error (resolution_fault self r) →
     lib_new_request url = None →
     open opener (request_for url) TIMEOUT st = (inl (Exception e'), st1) →
     _update opener url domain label v st =
       (inr CONN_ERROR,
        err_line (connection_line domain label (str_exception e')) st1)).
Proof.
  intros self ev.
  assert (_address_family self = family_of ipv6) as Haf by (by destruct ipv6).
  assert (host self = h ∧ port self = p) as [Hh Hp] by (by destruct ipv6).
  split; [| split].
  - intros st0. destruct (connect_log self st0) as (rest & Hlog & Hone & Hsock).
    exists rest. by rewrite Hh, Hp, Haf in Hlog, Hsock.
  - intros st r w' Hres Hno.
    unfold connect, getaddrinfo, outside, outside_with, bind, faulty.
    rewrite Hh, Hp, Haf, Hres.
    destruct r as [f | [| info rest]]; [| | done]; eexists; split; reflexivity.
  - intros r opener url domain label v st st1 e' Hno He' Hreq Hopen.
    apply _update_without_status; [done | done |].
    destruct r as [[msg | msg] | [| info rest]]; [| | | done];
      destruct He' as [-> | ->]; done.
Qed.

(** C6, as amended.  After the raw socket has been created, the socket
    is closed before the fault leaves [connect] when [sock.connect]
    fails (by [connect] itself), when the proxy refuses the tunnel (by
    the tunnel routine, which closes the connection) and when the TLS
    handshake fails (by the TLS library).  When the tunnel handshake
    breaks off, as when the proxy never answers, [connect] raises with
    the socket open and still held in [self.sock]. *)
Theorem socket_closed_before_fault :
  (∀ self st af ty proto name sa more w1 s w2 f w3,
     os_getaddrinfo (host self) (port_or_default (port self)) (_address_family self)
       SOCK_STREAM (world st) = (inr (AddrInfo af ty proto name sa :: more), w1) →
     os_socket af ty proto w1 = (inr s, w2) →
     os_connect s sa (os_settimeout s (timeout self) w2) = (Some f, w3) →
     ∃ st', connect self st = (inl (Exception (fault_exception f)), st') ∧
            closed_on_failure st st' ∧ world st' = os_close s w3) ∧
  (∀ self st s w code message w',
     dialled self st s w →
     truthy (_tunnel_host self) = true →
     lib_tunnel s (tls_name self) w = (TunnelRefused code message, w') →
     ∃ st', connect self st =
              (inl (Exception (OSError ("Tunnel connection failed: " +:+ pretty code
                                        +:+ " " +:+ message))), st') ∧
            closed_on_failure st st' ∧ world st' = os_close s w' ∧
            self_sock st' = None) ∧
  (∀ self st s w w' f w'',
     dialled self st s w →
     past_tunnel self s w w' →
     lib_wrap_socket s (tls_name self) w' = (HandshakeFailed f, w'') →
     ∃ st', connect self st = (inl (Exception (fault_exception f)), st') ∧
            closed_on_failure st st' ∧ world st' = os_close s w'') ∧
  (∀ self st s w f w',
     dialled self st s w →
     truthy (_tunnel_host self) = true →
     lib_tunnel s (tls_name self) w = (TunnelBroken f, w') →
     ∃ st' evs, connect self st = (inl (Exception (fault_exception f)), st') ∧
            logged st st' evs ∧
            (∃ af ty proto, EvSocket af ty proto (Some s) ∈ evs) ∧
            (∀ s', EvClose s' ∉ evs) ∧
            ¬ closed_on_failure st st' ∧
            world st' = w' ∧ self_sock st' = Some (RawSocket s)).
Proof.
  repeat split.
  - intros self st af ty proto name sa more w1 s w2 f w3 Hres Hsock Hconn.
    unfold connect, getaddrinfo, socket, sock_settimeout, sock_connect, sock_close,
      outside, outside_with, bind, try_except, raise, faulty, lift_option.
    rewrite Hres. simpl. rewrite Hsock. simpl. rewrite Hconn. simpl.
    eexists. split; [reflexivity |]. split; [| reflexivity].
    eapply closed_on_failure_by_log.
    { unfold logged. simpl. rewrite <- !app_assoc. reflexivity. }
    intros af' ty' proto' s' Hin.
    repeat (apply elem_of_cons in Hin as [Hin | Hin]; [try discriminate |]).
    + injection Hin as -> -> -> ->. set_solver.
    + by apply elem_of_nil in Hin.
  - intros self st s w code message w'
      (af & ty & proto & name & sa & more & w1 & w2 & Hres & Hsock & Hconn) Ht Htun.
    unfold tls_name in Htun. rewrite Ht in Htun.
    unfold connect, getaddrinfo, socket, sock_settimeout, sock_connect, _tunnel,
      close_connection, sock_close, set_self_sock,
      outside, outside_with, bind, try_except, raise, faulty, lift_option, ret.
    rewrite Hres. simpl. rewrite Hsock. simpl. rewrite Hconn. simpl.
    rewrite Ht. simpl. rewrite Htun. simpl.
    eexists. split; [reflexivity |]. split; [| done].
    eapply closed_on_failure_by_log.
    { unfold logged. simpl. rewrite <- !app_assoc. reflexivity. }
    intros af' ty' proto' s' Hin.
    repeat (apply elem_of_cons in Hin as [Hin | Hin]; [try discriminate |]).
    + injection Hin as -> -> -> ->. set_solver.
    + by apply elem_of_nil in Hin.
  - intros self st s w w' f w''
      (af & ty & proto & name & sa & more & w1 & w2 & Hres & Hsock & Hconn) Hpast Hwrap.
    unfold past_tunnel, tls_name in *.
    unfold connect, getaddrinfo, socket, sock_settimeout, sock_connect, _tunnel,
      wrap_socket, close_connection, sock_close, set_self_sock,
      outside, outside_with, bind, try_except, raise, faulty, lift_option, ret.
    rewrite Hres. simpl. rewrite Hsock. simpl. rewrite Hconn. simpl.
    destruct (truthy (_tunnel_host self)); simpl.
    + rewrite Hpast. simpl. rewrite Hwrap. simpl.
      eexists. split; [reflexivity |]. split; [| done].
      eapply closed_on_failure_by_log.
      { unfold logged. simpl. rewrite <- !app_assoc. reflexivity. }
      intros af' ty' proto' s' Hin.
      repeat (apply elem_of_cons in Hin as [Hin | Hin]; [try discriminate |]).
      * injection Hin as -> -> -> ->. set_solver.
      * by apply elem_of_nil in Hin.
    + subst w'. rewrite Hwrap. simpl.
      eexists. split; [reflexivity |]. split; [| done].
      eapply closed_on_failure_by_log.
      { unfold logged. simpl. rewrite <- !app_assoc. reflexivity. }
      intros af' ty' proto' s' Hin.
      repeat (apply elem_of_cons in Hin as [Hin | Hin]; [try discriminate |]).
      * injection Hin as -> -> -> ->. set_solver.
      * by apply elem_of_nil in Hin.
  - intros self st s w f w'
      (af & ty & proto & name & sa & more & w1 & w2 & Hres & Hsock & Hconn) Ht Htun.
    unfold tls_name in Htun. rewrite Ht in Htun.
    unfold connect, getaddrinfo, socket, sock_settimeout, sock_connect, _tunnel,
      close_connection, sock_close, set_self_sock,
      outside, outside_with, bind, try_except, raise, faulty, lift_option, ret.
    rewrite Hres. simpl. rewrite Hsock. simpl. rewrite Hconn. simpl.
    rewrite Ht. simpl. rewrite Htun. simpl.
    eexists. eexists. split; [reflexivity |].
    assert (∀ l : list event,
      ((((l ++ [EvGetaddrinfo (host self) (port_or_default (port self))
                  (_address_family self) SOCK_STREAM]) ++
          [EvSocket af ty proto (Some s)]) ++ [EvSetTimeout s (timeout self)]) ++
          [EvConnect s sa]) ++
          [EvTunnel s (default EmptyString (_tunnel_host self))] =
      l ++ [EvGetaddrinfo (host self) (port_or_default (port self))
              (_address_family self) SOCK_STREAM;
            EvSocket af ty proto (Some s); EvSetTimeout s (timeout self);
            EvConnect s sa;
            EvTunnel s (default EmptyString (_tunnel_host self))]) as Hl.
    { intros l. by rewrite <- !app_assoc. }
    split; [unfold logged; simpl; apply Hl |].
    split; [exists af, ty, proto; set_solver |].
    split; [intros s' Hin; not_in_list Hin |].
    split; [| done].
    intros Hclosed.
    specialize (Hclosed _ af ty proto s (Hl _)).
    assert (EvClose s ∈
      [EvGetaddrinfo (host self) (port_or_default (port self))
         (_address_family self) SOCK_STREAM;
       EvSocket af ty proto (Some s); EvSetTimeout s (timeout self);
       EvConnect s sa;
       EvTunnel s (default EmptyString (_tunnel_host self))]) as Hin
      by (apply Hclosed; set_solver).
    not_in_list Hin.
Qed.

(** *** One update *)

(** C3. When the request was built and the opener comes back with an
    HTTP status, as the status of a response or as the code of an
    [HTTPError], [_update] classifies it: a status in [200,300) is [OK],
    with the confirmation printed only when verbose; 404, 400 and every
    other status are [HTTP_ERROR], each with its own message on the error
    stream. *)
Theorem update_classification opener (url domain label : string) (v : bool)
    st r st1 (s : Z) :
  lib_new_request url = None →
  open opener (request_for url) TIMEOUT st = (r, st1) →
  obtained_status r = Some s →
  ((200 ≤ s < 300)%Z →
     _update opener url domain label v st =
       (inr OK, if v then out_line (success_line domain label) st1 else st1)) ∧
  (s = 404%Z →
     _update opener url domain label v st =
       (inr HTTP_ERROR, err_line (invalid_line domain label) st1)) ∧
  (s = 400%Z →
     _update opener url domain label v st =
       (inr HTTP_ERROR, err_line (rejected_line domain label) st1)) ∧
  (¬ (200 ≤ s < 300)%Z → s ≠ 404%Z → s ≠ 400%Z →
     _update opener url domain label v st =
       (inr HTTP_ERROR, err_line (unexpected_line domain label s) st1)).
Proof.
  intros Hreq Hopen Hs. rewrite (_update_with_status _ _ _ _ _ _ _ _ _ Hreq Hopen Hs).
  repeat split.
  - intros [H1 H2].
    by rewrite (proj2 (Z.leb_le _ _) H1), (proj2 (Z.ltb_lt _ _) H2).
  - by intros ->.
  - by intros ->.
  - intros Hr H404 H400.
    destruct (200 <=? s)%Z eqn:E1; [destruct (s <? 300)%Z eqn:E2 |]; simpl.
    + destruct Hr. split; [by apply Z.leb_le | by apply Z.ltb_lt].
    + by rewrite (proj2 (Z.eqb_neq _ _) H404), (proj2 (Z.eqb_neq _ _) H400).
    + by rewrite (proj2 (Z.eqb_neq _ _) H404), (proj2 (Z.eqb_neq _ _) H400).
Qed.

(** C5. Whenever the request was built and the opener obtained an HTTP
    status, error statuses included, [_update] returns normally with [OK]
    or [HTTP_ERROR] according to the status; it returns [CONN_ERROR] only
    when no status was obtained, and it does so whenever the opener
    raised an exception that carries none. *)
Theorem status_is_never_a_connection_error opener (url domain label : string)
    (v : bool) st r st1 :
  lib_new_request url = None →
  open opener (request_for url) TIMEOUT st = (r, st1) →
  (∀ s, obtained_status r = Some s →
     ∃ st', _update opener url domain label v st =
              (inr (if (200 <=? s)%Z && (s <? 300)%Z then OK else HTTP_ERROR), st')) ∧
  (∀ out st', _update opener url domain label v st = (out, st') →
     out = inr CONN_ERROR → obtained_status r = None) ∧
  (∀ e, r = inl (Exception e) → obtained_status r = None →
     ∃ st', _update opener url domain label v st = (inr CONN_ERROR, st')).
Proof.
  intros Hreq Hopen.
  assert (∀ s, obtained_status r = Some s →
     ∃ st', _update opener url domain label v st =
              (inr (if (200 <=? s)%Z && (s <? 300)%Z then OK else HTTP_ERROR), st'))
    as Hstatus.
  { intros s Hs. rewrite (_update_with_status _ _ _ _ _ _ _ _ _ Hreq Hopen Hs).
    destruct (_ && _); [by eexists |].
    destruct (_ =? 404)%Z; [by eexists |]. destruct (_ =? 400)%Z; by eexists. }
  split; [done | split].
  - intros out st' Hrun ->.
    destruct (obtained_status r) as [s |] eqn:Hs; [| done].
    destruct (Hstatus s eq_refl) as (st'' & Hrun'). rewrite Hrun' in Hrun.
    by destruct (_ && _).
  - intros e -> Hs. rewrite (_update_without_status _ _ _ _ _ _ _ _ Hreq Hopen Hs).
    by eexists.
Qed.

(** X13. [_update] lets an exception out in three cases only: the library
    refuses to build the request for the URL, which happens before the
    [try]; the response has no integer status, so that the comparison
    after the [try] raises; or the opener raises what is not an
    [Exception].  In every other case it returns one of the three
    results. *)
Theorem update_returns_or_escapes opener (url domain label : string) (v : bool) st :
  (∀ e, lib_new_request url = Some e →
     _update opener url domain label v st = (inl (Exception e), st)) ∧
  (lib_new_request url = None →
   ∀ r1 st1, open opener (request_for url) TIMEOUT st = (r1, st1) →
     match r1 with
     | inr (mkResponse None) =>
         _update opener url domain label v st =
           (inl (Exception (OtherException
              "'<=' not supported between instances of 'int' and 'NoneType'")), st1)
     | inl (SystemExit c) =>
         _update opener url domain label v st = (inl (SystemExit c), st1)
     | _ => ∃ res st', _update opener url domain label v st = (inr res, st')
     end).
Proof.
  split; [intros e; apply _update_rejected |].
  intros Hreq r1 st1 Hopen.
  destruct (obtained_status r1) as [s |] eqn:Hs.
  - assert (∃ res st', _update opener url domain label v st = (inr res, st')) as H.
    { rewrite (_update_with_status _ _ _ _ _ _ _ _ _ Hreq Hopen Hs).
      destruct (_ && _); [by eexists _, _ |].
      destruct (_ =? 404)%Z; [by eexists _, _ |].
      destruct (_ =? 400)%Z; by eexists _, _. }
    by destruct r1 as [[[] | c] | [[s' |]]].
  - destruct r1 as [[e | c] | [[s' |]]]; [| | done |].
    + rewrite (_update_without_status _ _ _ _ _ _ _ _ Hreq Hopen Hs).
      destruct e; by eexists _, _.
    + unfold request_for in Hopen. unfold _update, new_request. rewrite Hreq.
      unfold bind at 1. unfold ret at 1. unfold bind at 1. unfold try_except, bind.
      by rewrite Hopen.
    + by apply _update_no_status.
Qed.

(** *** One record *)

Lemma main_loop_body_ext o4 o6 v (e1 e2 : gmap string string) f :
  e1 !! "domain" = e2 !! "domain" →
  truthy (e1 !! "update_url") = truthy (e2 !! "update_url") →
  (truthy (e1 !! "update_url") = true → e1 !! "update_url" = e2 !! "update_url") →
  truthy (e1 !! "update_url_v6") = truthy (e2 !! "update_url_v6") →
  (truthy (e1 !! "update_url_v6") = true → e1 !! "update_url_v6" = e2 !! "update_url_v6") →
  main_loop_body o4 o6 v (record e1) f = main_loop_body o4 o6 v (record e2) f.
Proof.
  intros Hd H4 H4' H6 H6'. rewrite !main_loop_body_record. cbv zeta.
  rewrite <- Hd, <- H4, <- H6.
  destruct (truthy (e1 !! "update_url")); [rewrite <- H4' by done |];
    (destruct (truthy (e1 !! "update_url_v6")); [rewrite <- H6' by done |]);
    reflexivity.
Qed.

Lemma drop_blank_other key key' entry :
  key ≠ key' → drop_blank key entry !! key' = entry !! key'.
Proof.
  intros Hne. unfold drop_blank.
  destruct (entry !! key) as [[| c u] |]; try done. by apply lookup_delete_ne.
Qed.

Lemma drop_blank_same key entry :
  truthy (drop_blank key entry !! key) = truthy (entry !! key) ∧
  (truthy (entry !! key) = true → drop_blank key entry !! key = entry !! key) ∧
  drop_blank key entry !! key ≠ Some EmptyString.
Proof.
  unfold drop_blank.
  destruct (entry !! key) as [[| c u] |] eqn:E; rewrite ?lookup_delete_eq, ?E; done.
Qed.

Lemma no_urls_body o4 o6 v entry f st :
  no_urls entry = true →
  main_loop_body o4 o6 v (record entry) f st =
    (inr f, err_line (no_urls_line (domain_of entry)) st).
Proof.
  rewrite no_urls_truthy, main_loop_body_record. cbv zeta.
  intros [H4 H6]%andb_true_iff.
  apply negb_true_iff in H4, H6. by rewrite H4, H6.
Qed.

(** C7. A record with neither URL field is processed without any
    update attempt and without any outside call: the flags come back
    unchanged and the only effect is one warning on the error stream,
    which names the record's domain. *)
Theorem record_without_urls o4 o6 (v : bool) entry (f : flags) st :
  entry !! "update_url" = None →
  entry !! "update_url_v6" = None →
  main_loop_body o4 o6 v (record entry) f st =
    (inr f, err_line (no_urls_line (domain_of entry)) st) ∧
  attempts (main_loop_body o4 o6 v (record entry) f st).2 = attempts st ∧
  calls (main_loop_body o4 o6 v (record entry) f st).2 = calls st ∧
  stdout (main_loop_body o4 o6 v (record entry) f st).2 = stdout st ∧
  stderr (main_loop_body o4 o6 v (record entry) f st).2 =
    stderr st ++ ["No update URLs configured for " +:+ domain_of entry +:+
                  ", updates not attempted"].
Proof.
  intros H4 H6.
  rewrite (no_urls_body o4 o6 v entry f st); [done |].
  unfold no_urls, planned_entry, asked. by rewrite H4, H6.
Qed.

(** X14. A URL field that holds the empty string counts as absent: a record
    is processed exactly as the record without its empty URL fields, and
    when every URL field present is empty the record gets the warning
    and no attempt. *)
Theorem blank_url_counts_as_absent o4 o6 (v : bool) entry (f : flags) st :
  let bare := drop_blank "update_url" (drop_blank "update_url_v6" entry) in
  (bare !! "update_url" ≠ Some EmptyString ∧ bare !! "update_url_v6" ≠ Some EmptyString ∧
   main_loop_body o4 o6 v (record entry) f st = main_loop_body o4 o6 v (record bare) f st) ∧
  ((entry !! "update_url" = None ∨ entry !! "update_url" = Some EmptyString) →
   (entry !! "update_url_v6" = None ∨ entry !! "update_url_v6" = Some EmptyString) →
   main_loop_body o4 o6 v (record entry) f st =
     (inr f, err_line (no_urls_line (domain_of entry)) st) ∧
   attempts (main_loop_body o4 o6 v (record entry) f st).2 = attempts st).
Proof.
  intros bare.
  assert ("update_url" ≠ "update_url_v6") as Hk by done.
  assert ("update_url_v6" ≠ "update_url") as Hk' by done.
  destruct (drop_blank_same "update_url" (drop_blank "update_url_v6" entry))
    as (T4 & S4 & B4).
  destruct (drop_blank_same "update_url_v6" entry) as (T6 & S6 & B6).
  rewrite (drop_blank_other _ _ _ Hk') in T4, S4.
  split; [split; [done | split] |].
  - unfold bare. by rewrite (drop_blank_other _ _ _ Hk).
  - apply (f_equal (λ m, m st)). apply main_loop_body_ext; unfold bare.
    + rewrite !drop_blank_other; done.
    + done.
    + intros H. by rewrite S4.
    + by rewrite (drop_blank_other _ _ _ Hk).
    + intros H. rewrite (drop_blank_other _ _ _ Hk). by rewrite S6.
  - intros H4 H6. rewrite (no_urls_body o4 o6 v entry f st); [done |].
    unfold no_urls, planned_entry, asked.
    destruct H4 as [-> | ->], H6 as [-> | ->]; done.
Qed.

(** X15. A record without a [domain] field is processed as the same record
    with the domain ["<undefined>"]: the attempts made for it are a first
    part of those its URL fields ask for, all of them when no exception
    cuts the processing short, and each carries the placeholder as
    domain. *)
Theorem missing_domain_placeholder o4 o6 (v : bool) entry (f : flags) st :
  quiet_opener o4 → quiet_opener o6 →
  entry !! "domain" = None →
  main_loop_body o4 o6 v (record entry) f st =
    main_loop_body o4 o6 v (record (<["domain" := "<undefined>"]> entry)) f st ∧
  domain_of entry = "<undefined>" ∧
  ∃ new n r st',
    main_loop_body o4 o6 v (record entry) f st = (r, st') ∧
    extends v st st' new n ∧
    map attempt_key new `prefix_of` planned_entry entry ∧
    (¬ aborted r → r = inr (flags_after f new) ∧
                   map attempt_key new = planned_entry entry) ∧
    Forall (λ a, at_domain a = "<undefined>") new.
Proof.
  intros Hq4 Hq6 Hd.
  assert (domain_of entry = "<undefined>") as Hdom.
  { unfold domain_of. by rewrite Hd. }
  split; [| split; [done |]].
  - rewrite !main_loop_body_record. cbv zeta.
    rewrite lookup_insert_eq, !lookup_insert_ne, Hd by done. reflexivity.
  - destruct (main_loop_body_effects o4 o6 v entry f st Hq4 Hq6)
      as (new & n & r & st' & Hrun & Hext & Hend).
    exists new, n, r, st'. split; [done | split; [done |]].
    assert (map attempt_key new `prefix_of` planned_entry entry) as Hpre.
    { destruct r as [[e | c] | f']; cbn [ended] in Hend.
      - by destruct Hend.
      - done.
      - destruct Hend as (_ & -> & _). done. }
    split; [done | split].
    + intros Hnab. destruct r as [[e | c] | f']; cbn [ended] in Hend.
      * destruct Hnab. by exists e.
      * done.
      * destruct Hend as (-> & -> & _). done.
    + apply Forall_forall. intros a Ha.
      assert (attempt_key a ∈ planned_entry entry) as Hin.
      { destruct Hpre as [k Hk]. rewrite Hk. apply elem_of_app. left.
        by apply list_elem_of_fmap_2. }
      unfold planned_entry in Hin. rewrite Hdom in Hin.
      unfold asked in Hin.
      apply elem_of_app in Hin as [Hin | Hin];
        repeat case_match; try (by apply elem_of_nil in Hin);
        apply list_elem_of_singleton in Hin; by injection Hin.
Qed.

(** X16. The exit status of a run that no exception cuts short follows the
    priority order: 5 as soon as one attempt ended in [CONN_ERROR];
    otherwise 4 when strict mode is set and one attempt ended in
    [HTTP_ERROR]; otherwise 0, however many [HTTP_ERROR] results there
    were.  A run cut short ends with status 1. *)
Theorem exit_status_priority (args : Namespace) (config_path : string)
    (domains : list (gmap string string)) (w : W) :
  domains ≠ [] →
  (aborted (main args config_path (record <$> domains) (init w)).1 →
   exit_status (main args config_path (record <$> domains) (init w)).1 = 1) ∧
  (¬ aborted (main args config_path (record <$> domains) (init w)).1 →
   exit_status (main args config_path (record <$> domains) (init w)).1 =
     if existsb is_conn_error (attempts (main args config_path (record <$> domains) (init w)).2)
     then EX_CONNECTION_ERROR
     else if strict args &&
             existsb is_http_error (attempts (main args config_path (record <$> domains) (init w)).2)
          then EX_UPDATE_FAILED
          else 0).
Proof.
  intros Hne. split; [by intros (e & ->) |].
  destruct (main_effects args config_path domains w Hne)
    as (new & n & r & st' & -> & Hext & Hend).
  destruct (extends_from_init _ _ _ _ _ Hext) as (Ha & _). cbn [fst snd].
  intros Hnab. destruct Hend as [(Hab & _) | (-> & _)]; [done |].
  rewrite Ha.
  destruct (existsb is_conn_error new); [done |].
  destruct (strict args && existsb is_http_error new); done.
Qed.

(** *** More on the transport *)

(** X8. When [connect] returns, the resolver had returned at least one
    entry, a socket was created for the first, dialled at its address
    and handed to the TLS library, and [self.sock] is that socket,
    wrapped under the name of the tunnel host when the connection is
    tunnelled and of the dialled host otherwise.  Its outside calls were
    these and no other, in this order: resolve, create, set the timeout,
    dial, make the tunnel handshake exactly when there is a tunnel host,
    wrap; nothing was closed. *)
Theorem connect_success_wraps_socket self st r st' :
  connect self st = (r, st') →
  r = inr tt →
  ∃ af ty proto name sa more w1 s w2 w3,
    os_getaddrinfo (host self) (port_or_default (port self)) (_address_family self)
      SOCK_STREAM (world st) = (inr (AddrInfo af ty proto name sa :: more), w1) ∧
    os_socket af ty proto w1 = (inr s, w2) ∧
    os_connect s sa (os_settimeout s (timeout self) w2) = (None, w3) ∧
    self_sock st' = Some (TLSSocket s (tls_name self)) ∧
    logged st st'
      ([EvGetaddrinfo (host self) (port_or_default (port self))
          (_address_family self) SOCK_STREAM;
        EvSocket af ty proto (Some s); EvSetTimeout s (timeout self);
        EvConnect s sa] ++
       (if truthy (_tunnel_host self) then [EvTunnel s (tls_name self)] else []) ++
       [EvWrapSocket s (tls_name self)]).
Proof.
  intros Hrun ->. revert Hrun. unfold logged, tls_name.
  run_connect; intros Heq; simplify_eq; simpl; rewrite <- ?app_assoc; simpl.
  all: repeat eexists; eauto.
Qed.

(** X9. What [self.sock] holds when [connect] has raised.  It is as it was
    before the call when no tunnel handshake was tried: resolution, the
    creation of the socket or dialling failed, or there is no tunnel
    host and wrapping failed.  After a tunnel the proxy refused it is
    [None], the connection having been closed.  After a tunnel handshake
    that broke off, and after a tunnel that was made and a wrapping that
    failed, it is the raw socket. *)
Theorem connect_failure_self_sock :
  (∀ self st e st' evs,
     connect self st = (inl e, st') → logged st st' evs →
     (∀ s h, EvTunnel s h ∉ evs) →
     self_sock st' = self_sock st) ∧
  (∀ self st s w code message w',
     dialled self st s w → truthy (_tunnel_host self) = true →
     lib_tunnel s (tls_name self) w = (TunnelRefused code message, w') →
     ∃ e, (connect self st).1 = inl e ∧ self_sock (connect self st).2 = None) ∧
  (∀ self st s w f w',
     dialled self st s w → truthy (_tunnel_host self) = true →
     lib_tunnel s (tls_name self) w = (TunnelBroken f, w') →
     ∃ e, (connect self st).1 = inl e ∧
          self_sock (connect self st).2 = Some (RawSocket s)) ∧
  (∀ self st s w w' a w'',
     dialled self st s w → truthy (_tunnel_host self) = true →
     lib_tunnel s (tls_name self) w = (TunnelOpen, w') →
     lib_wrap_socket s (tls_name self) w' = (a, w'') → a ≠ Wrapped →
     ∃ e, (connect self st).1 = inl e ∧
          self_sock (connect self st).2 = Some (RawSocket s)).
Proof.
  split; [| split; [| split]].
  - intros self st e st' evs Hrun Hlog Hno. revert Hrun Hlog. unfold logged.
    run_connect; intros Heq Hlog; simplify_eq; simpl in *; try done.
    all: rewrite <- ?app_assoc in Hlog; simpl in Hlog;
      apply app_inv_head in Hlog; subst evs.
    all: exfalso; eapply Hno;
      repeat first [apply list_elem_of_here | apply list_elem_of_further].
  - intros self st s w code message w'
      (af & ty & proto & name & sa & more & w1 & w2 & Hres & Hsock & Hconn) Ht Htun.
    unfold tls_name in Htun. rewrite Ht in Htun.
    unfold connect, getaddrinfo, socket, sock_settimeout, sock_connect, _tunnel,
      close_connection, sock_close, set_self_sock,
      outside, outside_with, bind, try_except, raise, faulty, lift_option, ret.
    rewrite Hres. simpl. rewrite Hsock. simpl. rewrite Hconn. simpl.
    rewrite Ht. simpl. rewrite Htun. simpl. by eexists.
  - intros self st s w f w'
      (af & ty & proto & name & sa & more & w1 & w2 & Hres & Hsock & Hconn) Ht Htun.
    unfold tls_name in Htun. rewrite Ht in Htun.
    unfold connect, getaddrinfo, socket, sock_settimeout, sock_connect, _tunnel,
      close_connection, sock_close, set_self_sock,
      outside, outside_with, bind, try_except, raise, faulty, lift_option, ret.
    rewrite Hres. simpl. rewrite Hsock. simpl. rewrite Hconn. simpl.
    rewrite Ht. simpl. rewrite Htun. simpl. by eexists.
  - intros self st s w w' a w''
      (af & ty & proto & name & sa & more & w1 & w2 & Hres & Hsock & Hconn)
      Ht Htun Hwrap Ha.
    unfold tls_name in Htun, Hwrap. rewrite Ht in Htun, Hwrap.
    unfold connect, getaddrinfo, socket, sock_settimeout, sock_connect, _tunnel,
      wrap_socket, close_connection, sock_close, set_self_sock,
      outside, outside_with, bind, try_except, raise, faulty, lift_option, ret.
    rewrite Hres. simpl. rewrite Hsock. simpl. rewrite Hconn. simpl.
    rewrite Ht. simpl. rewrite Htun. simpl. rewrite Hwrap. simpl.
    destruct a; [done | |]; simpl; by eexists.
Qed.

(** X10. [connect] uses the first resolved address only: in one call it
    creates at most one socket and dials at most once, and the address it
    dials is that of the first entry the resolver returned, however many
    entries follow and whether or not dialling succeeds. *)
Theorem connect_first_address_only self st :
  ∃ evs,
    logged st (connect self st).2 evs ∧
    (length (filter (λ ev, is_socket ev) evs) ≤ 1)%nat ∧
    (length (filter (λ ev, is_connect ev) evs) ≤ 1)%nat ∧
    ∀ s sa, EvConnect s sa ∈ evs →
      ∃ first more w,
        os_getaddrinfo (host self) (port_or_default (port self))
          (_address_family self) SOCK_STREAM (world st) = (inr (first :: more), w) ∧
        sa = ai_addr first.
Proof.
  unfold logged. run_connect.
  all: eexists; split; [reflexivity |].
  all: split; [vm_compute; lia |]; split; [vm_compute; lia |].
  all: intros s' sa' Hin.
  all: repeat (apply elem_of_cons in Hin as [Hin | Hin];
               [try discriminate; injection Hin as -> ->; eauto |]).
  all: by apply elem_of_nil in Hin.
Qed.

(** *** Strict and verbose *)

(** X6. Strict mode changes nothing in what a run does: attempts, outside
    calls and both streams are the same; only the exit status can differ,
    and only by being 4 where it would be 0. *)
Theorem strict_only_changes_exit_status (c : option string) (v : bool)
    (config_path : string) (domains : list element) st :
  let lax := main (mkArgs c v false) config_path domains st in
  let str := main (mkArgs c v true) config_path domains st in
  str.2 = lax.2 ∧
  (exit_status str.1 = exit_status lax.1 ∨
   (exit_status lax.1 = 0 ∧ exit_status str.1 = 4)).
Proof.
  unfold main. destruct domains as [| entry rest]; [split; [done | by left] |].
  remember (entry :: rest) as ds eqn:Hds. clear Hds.
  unfold bind. simpl.
  destruct (main_loop (_make_opener false) (_make_opener true) v ds
              (false, false) st) as [[e | [h c']] st'].
  - simpl. split; [done | by left].
  - destruct c', h; simpl; split; auto.
Qed.

Lemma blind_ret {A} (a : A) : blind (W := W) (ret a).
Proof. intros st out r st' [= <- <-]. done. Qed.

Lemma blind_raise {A} (e : raised) : blind (W := W) (raise (A := A) e).
Proof. intros st out r st' [= <- <-]. done. Qed.

Lemma blind_bind {A B} (m : M W A) (k : A → M W B) :
  blind m → (∀ a, blind (k a)) → blind (bind m k).
Proof.
  intros Hm Hk st out r st'. unfold bind.
  destruct (m st) as [[e | a] st1] eqn:E; rewrite (Hm _ out _ _ E).
  - by intros [= <- <-].
  - apply Hk.
Qed.

Lemma blind_try_except {A} (m : M W A) (h : raised → M W A) :
  blind m → (∀ e, blind (h e)) → blind (try_except m h).
Proof.
  intros Hm Hh st out r st'. unfold try_except.
  destruct (m st) as [[e | a] st1] eqn:E; rewrite (Hm _ out _ _ E).
  - apply Hh.
  - by intros [= <- <-].
Qed.

Lemma blind_outside_with {A} ev (op : W → (exception + A) * W) :
  blind (outside_with ev op).
Proof.
  intros st out r st'. unfold outside_with. simpl.
  destruct (op (world st)) as [[e | a] w]; by intros [= <- <-].
Qed.

Lemma blind_set_self_sock s : blind (W := W) (set_self_sock s).
Proof. intros st out r st' [= <- <-]. done. Qed.

Lemma blind_get_self_sock : blind (W := W) get_self_sock.
Proof. intros st out r st' [= <- <-]. done. Qed.

Ltac blind_steps :=
  repeat first
    [ apply blind_bind; [| intros ?]
    | apply blind_try_except; [| intros ?]
    | apply blind_ret | apply blind_raise | apply blind_outside_with
    | apply blind_set_self_sock | apply blind_get_self_sock
    | match goal with
      | |- blind (if ?b then _ else _) => destruct b
      | |- blind (match ?x with _ => _ end) => destruct x
      end ].

Lemma blind_connect self : blind (connect self).
Proof.
  unfold connect, getaddrinfo, socket, sock_settimeout, sock_connect,
    sock_close, _tunnel, wrap_socket, close_connection, outside.
  blind_steps.
Qed.

Lemma blind_run_plan cls (p : plan W) : blind (run_plan cls p).
Proof.
  induction p as [resp | e | evs update next IH | h port t tunnel next IH];
    intros st out r st'; simpl.
  - by intros [= <- <-].
  - by intros [= <- <-].
  - intros E. exact (IH _ _ out _ _ E).
  - destruct (connect _ _) as [[[e | c] | []] st1] eqn:Ec;
      pose proof (blind_connect _ _ out _ _ Ec) as Ec'; unfold with_stdout in Ec';
      simpl in Ec'; rewrite Ec'.
    + intros E. exact (IH _ _ _ _ out _ _ E).
    + by intros [= <- <-].
    + intros E. exact (IH _ _ _ _ out _ _ E).
Qed.

Lemma blind_make_opener ipv6 : blind_opener (_make_opener ipv6).
Proof.
  intros req t st out r st' E.
  exact (blind_run_plan _ _ _ out _ _ E).
Qed.

Lemma muted_bind {A B} (m m' : M W A) (k k' : A → M W B) :
  muted m m' → (∀ a, muted (k a) (k' a)) → muted (bind m k) (bind m' k').
Proof.
  intros Hm Hk st r st'. unfold bind.
  destruct (m st) as [[e | a] st1] eqn:E; rewrite (Hm _ _ _ E).
  - by intros [= <- <-].
  - apply Hk.
Qed.

Lemma muted_ret {A} (a : A) : muted (W := W) (ret a) (ret a).
Proof. intros st r st' [= <- <-]. done. Qed.

Lemma muted_raise {A} (e : raised) : muted (W := W) (raise (A := A) e) (raise e).
Proof. intros st r st' [= <- <-]. done. Qed.

Lemma muted_print_stderr line : muted (W := W) (print_stderr line) (print_stderr line).
Proof. intros st r st' [= <- <-]. done. Qed.

Lemma muted_update opener url domain label v :
  quiet_opener opener → blind_opener opener →
  muted (_update opener url domain label v) (_update opener url domain label false).
Proof.
  intros Hq Hb st r st' Hrun.
  destruct (lib_new_request url) as [e |] eqn:Hreq.
  { rewrite (_update_rejected _ _ _ _ _ _ _ Hreq) in Hrun.
    rewrite (_update_rejected _ _ _ _ _ _ _ Hreq). by injection Hrun as <- <-. }
  destruct (open opener (request_for url) TIMEOUT st) as [r0 st1] eqn:E.
  pose proof (Hb _ _ _ [] _ _ E) as E'. fold (mute st) in E'. fold (mute st1) in E'.
  destruct (Hq _ _ _ _ _ E) as (_ & _ & _ & Hne).
  destruct (obtained_status r0) as [s |] eqn:Hs.
  - rewrite (_update_with_status _ _ _ _ _ _ _ _ _ Hreq E Hs) in Hrun.
    rewrite (_update_with_status _ _ _ _ _ _ _ _ _ Hreq E' Hs).
    destruct (_ && _); [| destruct (_ =? 404)%Z; [| destruct (_ =? 400)%Z]];
      injection Hrun as <- <-; try reflexivity.
    by destruct v.
  - destruct r0 as [[e | c] | [[s |]]]; [| by destruct (Hne c) | done |].
    + rewrite (_update_without_status _ _ _ _ _ _ _ _ Hreq E Hs) in Hrun.
      rewrite (_update_without_status _ _ _ _ _ _ _ _ Hreq E' Hs).
      by injection Hrun as <- <-.
    + rewrite (_update_no_status _ _ _ _ _ _ _ Hreq E) in Hrun.
      rewrite (_update_no_status _ _ _ _ _ _ _ Hreq E').
      by injection Hrun as <- <-.
Qed.

Lemma muted_main_loop_body o4 o6 v (entry : element) f :
  quiet_opener o4 → blind_opener o4 → quiet_opener o6 → blind_opener o6 →
  muted (main_loop_body o4 o6 v entry f) (main_loop_body o4 o6 false entry f).
Proof.
  intros Hq4 Hb4 Hq6 Hb6. unfold main_loop_body, attempt.
  destruct entry as [fields | type_name]; [| apply muted_raise].
  assert (∀ a, muted (W := W) (record_attempt a) (record_attempt a)) as Hrec.
  { intros a st r st' [= <- <-]. done. }
  apply muted_bind; [| intros f1; apply muted_bind; [| intros f2; apply muted_bind]].
  - destruct (truthy_value _); [| apply muted_ret].
    apply muted_bind; [by apply muted_update | intros res].
    apply muted_bind; [apply Hrec | intros _; apply muted_ret].
  - destruct (truthy_value _); [| apply muted_ret].
    apply muted_bind; [by apply muted_update | intros res].
    apply muted_bind; [apply Hrec | intros _; apply muted_ret].
  - destruct (_ && _); [apply muted_print_stderr | apply muted_ret].
  - intros _. apply muted_ret.
Qed.

Lemma muted_main_loop o4 o6 v (domains : list element) f :
  quiet_opener o4 → blind_opener o4 → quiet_opener o6 → blind_opener o6 →
  muted (main_loop o4 o6 v domains f) (main_loop o4 o6 false domains f).
Proof.
  intros Hq4 Hb4 Hq6 Hb6. revert f.
  induction domains as [| entry rest IH]; intros f; simpl; [apply muted_ret |].
  apply muted_bind; [by apply muted_main_loop_body | intros f'; apply IH].
Qed.

(** X7. Verbose mode changes nothing but the output stream: the run without
    it ends with the same status after the same attempts, the same
    outside calls and the same lines on the error stream, and with an
    empty output stream. *)
Theorem verbose_only_changes_stdout (c : option string) (v s : bool)
    (config_path : string) (domains : list element) (w : W) :
  main (mkArgs c false s) config_path domains (init w) =
    ((main (mkArgs c v s) config_path domains (init w)).1,
     mute (main (mkArgs c v s) config_path domains (init w)).2).
Proof.
  assert (muted (main (mkArgs c v s) config_path domains)
                (main (mkArgs c false s) config_path domains)) as Hm.
  { unfold main. destruct domains as [| entry rest].
    - apply muted_bind; [apply muted_print_stderr |].
      intros _ st r st' [= <- <-]. done.
    - remember (entry :: rest) as ds eqn:Hds. clear Hds. simpl.
      apply muted_bind.
      + apply muted_main_loop; auto using quiet_make_opener, blind_make_opener.
      + intros [h c']. destruct c'; [by intros st r st' [= <- <-] |].
        destruct (s && h); by intros st r st' [= <- <-]. }
  destruct (main (mkArgs c v s) config_path domains (init w)) as [r st'] eqn:E.
  exact (Hm _ _ _ E).
Qed.

End Properties.

(** ** The statements at concrete inputs *)

Section Runs.

(** Scenarios A to E of the specification. *)
Example scenario_A :
  let r := main (N := scripted (answering 200)) lax_args "config.toml"
             [record entry_v4] (init w0) in
  exit_status r.1 = 0 ∧ stdout r.2 = [] ∧ stderr r.2 = [].
Proof. vm_compute. done. Qed.

Example scenario_B :
  let r := main (N := scripted (answering 404)) lax_args "config.toml"
             [record entry_v4] (init w0) in
  exit_status r.1 = 0 ∧
  stderr r.2 = ["example2.ydns.eu (IPv4): update URL is invalid (404). Check your configuration."].
Proof. vm_compute. done. Qed.

Example scenario_C :
  exit_status (main (N := scripted (answering 404)) strict_args "config.toml"
                 [record entry_v4] (init w0)).1 = 4.
Proof. vm_compute. done. Qed.

Example scenario_D :
  let r := main (N := scripted no_aaaa) lax_args "config.toml"
             [record entry_nameless] (init w0) in
  exit_status r.1 = 5 ∧
  stderr r.2 = ["<undefined> (IPv6): connection error: <urlopen error getaddrinfo returned no results for 'ydns.io' in address family AF_INET6>"].
Proof. vm_compute. done. Qed.

Example scenario_E :
  let r := main (N := scripted one_rejected) lax_args "config.toml"
             [record entry_v4; record entry_both] (init w0) in
  exit_status r.1 = 0 ∧
  map at_result (attempts r.2) = [HTTP_ERROR; OK; OK].
Proof. vm_compute. done. Qed.

(** After a tunnel handshake that broke off it is the library that
    closes the socket, once [connect] has raised. *)
Example tunnel_failure_closed_by_caller :
  let r := _update (N := scripted tunnel_times_out)
             (_make_opener (N := scripted tunnel_times_out) false)
             sample_url "example2.ydns.eu" "IPv4" false (init w0) in
  r.1 = inr CONN_ERROR ∧
  calls r.2 = [EvGetaddrinfo "proxy.example" 3128 AF_INET SOCK_STREAM;
               EvSocket AF_INET SOCK_STREAM 6 (Some 3); EvSetTimeout 3 5;
               EvConnect 3 ("192.0.2.1", 443); EvTunnel 3 "ydns.io"; EvClose 3] ∧
  open_fds (world r.2) = [].
Proof. vm_compute. done. Qed.

(** A successful update, call by call: the socket is closed by the
    library once it has the response. *)
Example successful_update_trace :
  let r := _update (N := scripted (answering 200))
             (_make_opener (N := scripted (answering 200)) true)
             sample_url "example2.ydns.eu" "IPv6" true (init w0) in
  r.1 = inr OK ∧
  calls r.2 = [EvGetaddrinfo "ydns.io" 443 AF_INET6 SOCK_STREAM;
               EvSocket AF_INET6 SOCK_STREAM 6 (Some 3); EvSetTimeout 3 5;
               EvConnect 3 ("2001:db8::1", 443); EvWrapSocket 3 "ydns.io";
               EvExchange sample_url; EvClose 3] ∧
  stdout r.2 = ["Updated example2.ydns.eu (IPv6) successfully."] ∧
  open_fds (world r.2) = [].
Proof. vm_compute. done. Qed.

(** An [http:] URL given to the IPv6 opener is served by urllib's stock
    handler, which resolves for an unspecified family; a URL whose scheme
    nobody serves ends as a connection error without any outside call. *)
Example stock_handler_ignores_the_family :
  let r := _update (N := scripted plain_http)
             (_make_opener (N := scripted plain_http) true)
             "http://ydns.io/hosts/update/x" "example.ydns.eu" "IPv6" false (init w0) in
  r.1 = inr OK ∧
  calls r.2 = [EvGetaddrinfo "ydns.io" 80 AF_UNSPEC SOCK_STREAM;
               EvDefaultOpen "http://ydns.io/hosts/update/x"].
Proof. vm_compute. done. Qed.

Example unknown_scheme_is_a_connection_error :
  let r := _update (N := scripted unknown_scheme)
             (_make_opener (N := scripted unknown_scheme) false)
             "gopher://ydns.io/x" "example.ydns.eu" "IPv4" false (init w0) in
  r.1 = inr CONN_ERROR ∧ calls r.2 = [] ∧
  stderr r.2 = ["example.ydns.eu (IPv4): connection error: <urlopen error unknown url type: gopher>"].
Proof. vm_compute. done. Qed.

(** Entries that stray from the format: a URL that is the number 5 is
    passed on as the text "5", which [Request] refuses; an array element
    that is a string has no [get]. *)
Example stray_entries :
  (main (N := scripted (answering 200)) lax_args "config.toml"
     [entry_numeric_url] (init w0)).1
    = inl (Exception (OtherException "unknown url type: '5'")) ∧
  (main (N := scripted (answering 200)) lax_args "config.toml"
     [record entry_v4; entry_string; record entry_both] (init w0))
    = (inl (Exception (OtherException "'str' object has no attribute 'get'")),
       (main (N := scripted (answering 200)) lax_args "config.toml"
          [record entry_v4] (init w0)).2).
Proof. vm_compute. done. Qed.

(** C1 fails at a record whose URL has no scheme: [Request] raises
    [ValueError] at line 129, outside the [try] of [_update]; nothing
    catches it, and the process ends with a traceback and status 1,
    which is none of 5, 4 and 0.  No attempt was finished, so none ended
    in a connection failure. *)
Theorem scheme_less_url_ends_with_status_1 :
  let r := main (N := scripted (answering 200)) strict_args "config.toml"
             [record entry_schemeless] (init w0) in
  let final := interpreter_exit (N := scripted (answering 200)) r.1 r.2 in
  entry_schemeless !! "update_url" = Some "ydns.io/hosts/update/x" ∧
  r.1 = inl (Exception (OtherException "unknown url type: 'ydns.io/hosts/update/x'")) ∧
  final.1 = 1 ∧
  attempts r.2 = [] ∧ calls r.2 = [] ∧ stdout final.2 = [] ∧ stderr r.2 = [] ∧
  stderr final.2 =
    py_traceback (Network := scripted (answering 200))
      (OtherException "unknown url type: 'ydns.io/hosts/update/x'").
Proof. vm_compute. done. Qed.



(** C2 as stated fails: a record whose [update_url] is the empty string
    has one non-null URL field, and the run, which nothing cuts short,
    makes no attempt. *)
Lemma attempts_differ_from_non_null_urls :
  let r := main (N := scripted (answering 200)) lax_args "config.toml"
             [record entry_blank_url] (init w0) in
  r.1 = inr tt ∧
  length (attempts r.2) ≠ non_null_urls [entry_blank_url].
Proof. vm_compute. split; [done | discriminate]. Qed.

(** C2 as amended, at a run over three records which is not cut short,
    and at one that the second record cuts short. *)
Lemma attempts_follow_configuration_witness :
  ([entry_both; entry_blank_url; entry_v4] ≠ [] ∧
   map attempt_key
     (attempts (main (N := scripted (answering 404)) lax_args "config.toml"
                  (record <$> [entry_both; entry_blank_url; entry_v4]) (init w0)).2)
     = [("https://ydns.io/hosts/update/Wh4t", "example.ydns.eu", "IPv4");
        ("https://ydns.io/hosts/update/IPv6", "example.ydns.eu", "IPv6");
        ("https://ydns.io/hosts/update/AL0ng", "example2.ydns.eu", "IPv4")] ∧
   length
     (attempts (main (N := scripted (answering 404)) lax_args "config.toml"
                  (record <$> [entry_both; entry_blank_url; entry_v4]) (init w0)).2)
     = 3%nat) ∧
  ([entry_v4; entry_schemeless; entry_both] ≠ [] ∧
   map attempt_key
     (attempts (main (N := scripted (answering 200)) lax_args "config.toml"
                  (record <$> [entry_v4; entry_schemeless; entry_both]) (init w0)).2)
     `prefix_of` planned [entry_v4; entry_schemeless; entry_both]).
Proof.
  assert ([entry_both; entry_blank_url; entry_v4] ≠ []) as H by discriminate.
  assert ([entry_v4; entry_schemeless; entry_both] ≠ []) as H' by discriminate.
  destruct (attempts_follow_configuration (N := scripted (answering 404)) lax_args
              "config.toml" [entry_both; entry_blank_url; entry_v4] w0 H) as [_ K].
  assert (¬ aborted (main (N := scripted (answering 404)) lax_args "config.toml"
                       (record <$> [entry_both; entry_blank_url; entry_v4]) (init w0)).1)
    as Hnab.
  { intros (e & He). vm_compute in He. discriminate. }
  destruct (K Hnab) as [K1 K2].
  split; [split; [exact H | split] | split; [exact H' |]].
  - etransitivity; [exact K1 |]. vm_compute. reflexivity.
  - etransitivity; [exact K2 |]. vm_compute. reflexivity.
  - exact (proj1 (attempts_follow_configuration (N := scripted (answering 200)) lax_args
                    "config.toml" [entry_v4; entry_schemeless; entry_both] w0 H')).
Defined.

(** C3 at an update answered with 404. *)
Lemma update_classification_witness :
  let o := _make_opener (N := scripted (answering 404)) false in
  let r := open o (request_for (N := scripted (answering 404)) sample_url)
             TIMEOUT (init w0) in
  lib_new_request (Network := scripted (answering 404)) sample_url = None ∧
  r = (r.1, r.2) ∧
  obtained_status r.1 = Some 404%Z ∧
  _update (N := scripted (answering 404)) o sample_url "example2.ydns.eu" "IPv4"
      false (init w0)
    = (inr HTTP_ERROR, err_line (invalid_line "example2.ydns.eu" "IPv4") r.2).
Proof.
  intros o r.
  assert (lib_new_request (Network := scripted (answering 404)) sample_url = None)
    as H0 by (vm_compute; reflexivity).
  assert (r = (r.1, r.2)) as H1 by (by destruct r).
  assert (obtained_status r.1 = Some 404%Z) as H2 by (vm_compute; reflexivity).
  split; [exact H0 | split; [exact H1 | split; [exact H2 |]]].
  exact (proj1 (proj2 (update_classification (N := scripted (answering 404)) o
           sample_url "example2.ydns.eu" "IPv4" false (init w0) r.1 r.2 404 H0 H1 H2))
           eq_refl).
Defined.

(** C4 at an IPv6 update: of a host that resolves, and of a host without
    AAAA record. *)
Lemma forced_family_resolution_witness :
  (∃ rest,
     logged (init w0)
       (connect (N := scripted (answering 200)) dialled_directly (init w0)).2
       (EvGetaddrinfo "ydns.io" 443 AF_INET6 SOCK_STREAM :: rest) ∧
     Forall (λ e, is_getaddrinfo e = false) rest) ∧
  os_getaddrinfo (Network := scripted no_aaaa) "ydns.io" (port_or_default None)
    (family_of true) SOCK_STREAM (world (init w0)) = (inr [], w0) ∧
  no_usable_results (inr []) ∧
  (∃ st', connect (N := scripted no_aaaa) dialled_directly (init w0)
            = (inl (Exception (OSError
                 "getaddrinfo returned no results for 'ydns.io' in address family AF_INET6")),
               st') ∧
          logged (init w0) st' [EvGetaddrinfo "ydns.io" 443 AF_INET6 SOCK_STREAM]) ∧
  lib_new_request (Network := scripted no_aaaa) sample_url = None ∧
  (_update (N := scripted no_aaaa) (_make_opener (N := scripted no_aaaa) true)
     sample_url "example.ydns.eu" "IPv6" false (init w0)).1 = inr CONN_ERROR.
Proof.
  assert (os_getaddrinfo (Network := scripted no_aaaa) "ydns.io" (port_or_default None)
            (family_of true) SOCK_STREAM (world (init w0)) = (inr [], w0)) as H1
    by reflexivity.
  assert (no_usable_results (inr [])) as H2 by exact I.
  assert (lib_new_request (Network := scripted no_aaaa) sample_url = None) as H3
    by (vm_compute; reflexivity).
  destruct (forced_family_resolution (N := scripted (answering 200)) true
              "ydns.io" None None TIMEOUT) as (A & _ & _).
  destruct (forced_family_resolution (N := scripted no_aaaa) true
              "ydns.io" None None TIMEOUT) as (_ & B & C).
  split; [| split; [exact H1 | split; [exact H2 | split; [| split; [exact H3 |]]]]].
  - destruct (A (init w0)) as (rest & K1 & K2 & _). exists rest. split; [exact K1 | exact K2].
  - destruct (B (init w0) (inr []) w0 H1 H2) as (st' & K1 & K2).
    exists st'. split; [exact K1 | exact K2].
  - set (o := _make_opener (N := scripted no_aaaa) true).
    pose (r := open o (request_for (N := scripted no_aaaa) sample_url) TIMEOUT (init w0)).
    assert (open o (request_for (N := scripted no_aaaa) sample_url) TIMEOUT (init w0)
            = (inl (Exception (as_url_error
                 (resolution_fault (N := scripted no_aaaa)
                    (class_of true "ydns.io" None TIMEOUT None) (inr [])))), r.2)) as H4
      by (vm_compute; reflexivity).
    rewrite (C (inr []) o sample_url "example.ydns.eu" "IPv6" false (init w0) r.2 _
               H2 (or_intror eq_refl) H3 H4).
    reflexivity.
Defined.

(** C5 at an update answered with 503, and at one the peer refuses. *)
Lemma status_is_never_a_connection_error_witness :
  let o := _make_opener (N := scripted (answering 503)) false in
  let r := open o (request_for (N := scripted (answering 503)) sample_url)
             TIMEOUT (init w0) in
  let o' := _make_opener (N := scripted refusing) false in
  let r' := open o' (request_for (N := scripted refusing) sample_url)
              TIMEOUT (init w0) in
  lib_new_request (Network := scripted (answering 503)) sample_url = None ∧
  r = (r.1, r.2) ∧
  obtained_status r.1 = Some 503%Z ∧
  (∃ st', _update (N := scripted (answering 503)) o sample_url "example2.ydns.eu"
            "IPv4" false (init w0) = (inr HTTP_ERROR, st')) ∧
  r'.1 = inl (Exception (URLError "[Errno 111] Connection refused")) ∧
  (∃ st', _update (N := scripted refusing) o' sample_url "example2.ydns.eu"
            "IPv4" false (init w0) = (inr CONN_ERROR, st')).
Proof.
  intros o r o' r'.
  assert (lib_new_request (Network := scripted (answering 503)) sample_url = None)
    as H0 by (vm_compute; reflexivity).
  assert (lib_new_request (Network := scripted refusing) sample_url = None)
    as H0' by (vm_compute; reflexivity).
  assert (r = (r.1, r.2)) as H1 by (by destruct r).
  assert (r' = (r'.1, r'.2)) as H1' by (by destruct r').
  assert (obtained_status r.1 = Some 503%Z) as H2 by (vm_compute; reflexivity).
  assert (r'.1 = inl (Exception (URLError "[Errno 111] Connection refused"))) as H2'
    by (vm_compute; reflexivity).
  split; [exact H0 | split; [exact H1 | split; [exact H2 | split; [| split; [exact H2' |]]]]].
  - exact (proj1 (status_is_never_a_connection_error (N := scripted (answering 503)) o
             sample_url "example2.ydns.eu" "IPv4" false (init w0) r.1 r.2 H0 H1) 503 H2).
  - refine (proj2 (proj2 (status_is_never_a_connection_error (N := scripted refusing) o'
             sample_url "example2.ydns.eu" "IPv4" false (init w0) r'.1 r'.2 H0' H1'))
             _ H2' _).
    rewrite H2'. reflexivity.
Defined.

(** C6 as stated fails: the proxy leaves the tunnel request unanswered,
    [connect] raises the timeout, and the socket it created is neither
    closed by it nor closed at all at that point. *)
Lemma tunnel_failure_leaves_socket_open :
  ∃ st',
    connect (N := scripted tunnel_times_out) proxied (init w0)
      = (inl (Exception (OSError "timed out")), st') ∧
    calls st' = [EvGetaddrinfo "proxy.example" 3128 AF_INET SOCK_STREAM;
                 EvSocket AF_INET SOCK_STREAM 6 (Some 3%Z); EvSetTimeout 3 5;
                 EvConnect 3 ("192.0.2.1", 443%Z); EvTunnel 3 "ydns.io"] ∧
    open_fds (world st') = [3%Z] ∧
    ¬ closed_on_failure (init w0) st'.
Proof.
  eexists. split; [vm_compute; reflexivity |].
  split; [reflexivity | split; [reflexivity |]].
  intros Hclosed.
  specialize (Hclosed
    [EvGetaddrinfo "proxy.example" 3128 AF_INET SOCK_STREAM;
     EvSocket AF_INET SOCK_STREAM 6 (Some 3%Z); EvSetTimeout 3 5;
     EvConnect 3 ("192.0.2.1", 443%Z); EvTunnel 3 "ydns.io"]
    AF_INET SOCK_STREAM 6%Z 3%Z eq_refl).
  assert (EvClose 3 ∈
    [EvGetaddrinfo "proxy.example" 3128 AF_INET SOCK_STREAM;
     EvSocket AF_INET SOCK_STREAM 6 (Some 3%Z); EvSetTimeout 3 5;
     EvConnect 3 ("192.0.2.1", 443%Z); EvTunnel 3 "ydns.io"]) as Hin.
  { apply Hclosed. apply list_elem_of_further, list_elem_of_here. }
  repeat (apply elem_of_cons in Hin as [Hin | Hin]; [discriminate |]).
  by apply elem_of_nil in Hin.
Qed.

Lemma dialled_in_script (sc : Script) (self : HTTPSConnection) af' name sa :
  sc_connect sc = None →
  sc_resolve sc (host self) (_address_family self)
    = inr [AddrInfo af' SOCK_STREAM 6 name sa] →
  dialled (N := scripted sc) self (init w0) 3 (mkSockets 4 [3%Z]).
Proof.
  intros Hc Hr. exists af', SOCK_STREAM, 6%Z, name, sa, [], w0, (mkSockets 4 [3%Z]).
  simpl. by rewrite Hr, Hc.
Qed.

(** C6 as amended, at a connection the peer refuses, at a tunnel the
    proxy refuses, at a TLS handshake that fails, and at a tunnel
    request the proxy never answers. *)
Lemma socket_closed_before_fault_witness :
  (∃ st', connect (N := scripted refusing) dialled_directly (init w0) =
            (inl (Exception (OSError "[Errno 111] Connection refused")), st') ∧
          open_fds (world st') = [] ∧ closed_on_failure (init w0) st') ∧
  (∃ st', connect (N := scripted tunnel_refused) proxied (init w0) =
            (inl (Exception (OSError "Tunnel connection failed: 403 Forbidden")), st') ∧
          open_fds (world st') = [] ∧ closed_on_failure (init w0) st' ∧
          self_sock st' = None) ∧
  (∃ st', connect (N := scripted handshake_fails) dialled_directly (init w0) =
            (inl (Exception (OSError "[SSL: CERTIFICATE_VERIFY_FAILED]")), st') ∧
          open_fds (world st') = [] ∧ closed_on_failure (init w0) st') ∧
  (∃ st', connect (N := scripted tunnel_times_out) proxied (init w0) =
            (inl (Exception (OSError "timed out")), st') ∧
          open_fds (world st') = [3%Z] ∧ ¬ closed_on_failure (init w0) st' ∧
          self_sock st' = Some (RawSocket 3)).
Proof.
  split; [| split; [| split]].
  - assert (os_getaddrinfo (Network := scripted refusing) (host dialled_directly)
      (port_or_default (port dialled_directly)) (_address_family dialled_directly)
      SOCK_STREAM (world (init w0))
      = (inr [AddrInfo AF_INET6 SOCK_STREAM 6 EmptyString ("2001:db8::1", 443%Z)], w0))
      as H1 by reflexivity.
    assert (os_socket (Network := scripted refusing) AF_INET6 SOCK_STREAM 6 w0
      = (inr 3%Z, mkSockets 4 [3%Z])) as H2 by reflexivity.
    assert (os_connect (Network := scripted refusing) 3 ("2001:db8::1", 443%Z)
      (os_settimeout (Network := scripted refusing) 3 (timeout dialled_directly)
         (mkSockets 4 [3%Z]))
      = (Some (OSFault "[Errno 111] Connection refused"), mkSockets 4 [3%Z])) as H3
      by reflexivity.
    destruct (proj1 (socket_closed_before_fault (N := scripted refusing))
                dialled_directly (init w0) AF_INET6 SOCK_STREAM 6%Z EmptyString
                ("2001:db8::1", 443%Z) [] w0 3%Z (mkSockets 4 [3%Z])
                (OSFault "[Errno 111] Connection refused") (mkSockets 4 [3%Z])
                H1 H2 H3) as (st' & K1 & K2 & K3).
    exists st'. split; [exact K1 | split; [| exact K2]].
    rewrite K3. vm_compute. reflexivity.
  - assert (dialled (N := scripted tunnel_refused) proxied (init w0) 3 (mkSockets 4 [3%Z]))
      as H1 by (by eapply dialled_in_script).
    assert (truthy (_tunnel_host proxied) = true) as H2 by reflexivity.
    assert (lib_tunnel (Network := scripted tunnel_refused) 3 (tls_name proxied)
              (mkSockets 4 [3%Z]) = (TunnelRefused 403 "Forbidden", mkSockets 4 [3%Z]))
      as H3 by reflexivity.
    destruct (proj1 (proj2 (socket_closed_before_fault (N := scripted tunnel_refused)))
                proxied (init w0) 3%Z (mkSockets 4 [3%Z]) 403%Z "Forbidden"
                (mkSockets 4 [3%Z]) H1 H2 H3) as (st' & K1 & K2 & K3 & K4).
    exists st'. split; [exact K1 | split; [| split; [exact K2 | exact K4]]].
    rewrite K3. vm_compute. reflexivity.
  - assert (dialled (N := scripted handshake_fails) dialled_directly (init w0) 3
              (mkSockets 4 [3%Z])) as H1 by (by eapply dialled_in_script).
    assert (past_tunnel (N := scripted handshake_fails) dialled_directly 3
              (mkSockets 4 [3%Z]) (mkSockets 4 [3%Z])) as H2 by reflexivity.
    assert (lib_wrap_socket (Network := scripted handshake_fails) 3
              (tls_name dialled_directly) (mkSockets 4 [3%Z])
            = (HandshakeFailed (OSFault "[SSL: CERTIFICATE_VERIFY_FAILED]"),
               mkSockets 4 [3%Z])) as H3 by reflexivity.
    destruct (proj1 (proj2 (proj2 (socket_closed_before_fault
                (N := scripted handshake_fails))))
                dialled_directly (init w0) 3%Z (mkSockets 4 [3%Z]) (mkSockets 4 [3%Z])
                (OSFault "[SSL: CERTIFICATE_VERIFY_FAILED]") (mkSockets 4 [3%Z])
                H1 H2 H3) as (st' & K1 & K2 & K3).
    exists st'. split; [exact K1 | split; [| exact K2]].
    rewrite K3. vm_compute. reflexivity.
  - assert (dialled (N := scripted tunnel_times_out) proxied (init w0) 3
              (mkSockets 4 [3%Z])) as H1 by (by eapply dialled_in_script).
    assert (truthy (_tunnel_host proxied) = true) as H2 by reflexivity.
    assert (lib_tunnel (Network := scripted tunnel_times_out) 3 (tls_name proxied)
              (mkSockets 4 [3%Z]) = (TunnelBroken (OSFault "timed out"), mkSockets 4 [3%Z]))
      as H3 by reflexivity.
    destruct (proj2 (proj2 (proj2 (socket_closed_before_fault
                (N := scripted tunnel_times_out))))
                proxied (init w0) 3%Z (mkSockets 4 [3%Z]) (OSFault "timed out")
                (mkSockets 4 [3%Z]) H1 H2 H3)
      as (st' & evs & K1 & _ & _ & _ & K2 & K3 & K4).
    exists st'. split; [exact K1 | split; [| split; [exact K2 | exact K4]]].
    rewrite K3. reflexivity.
Defined.

(** C7 at a record that names its domain and nothing else. *)
Lemma record_without_urls_witness :
  entry_empty !! "update_url" = None ∧
  entry_empty !! "update_url_v6" = None ∧
  main_loop_body (N := scripted (answering 200))
      (_make_opener (N := scripted (answering 200)) false)
      (_make_opener (N := scripted (answering 200)) true)
      false (record entry_empty) (false, false) (init w0)
    = (inr (false, false),
       err_line "No update URLs configured for example4.ydns.eu, updates not attempted"
                (init w0)).
Proof.
  assert (entry_empty !! "update_url" = None) as H1 by (vm_compute; reflexivity).
  assert (entry_empty !! "update_url_v6" = None) as H2 by (vm_compute; reflexivity).
  split; [exact H1 | split; [exact H2 |]].
  etransitivity;
    [exact (proj1 (record_without_urls (N := scripted (answering 200))
              (_make_opener (N := scripted (answering 200)) false)
              (_make_opener (N := scripted (answering 200)) true)
              false entry_empty (false, false) (init w0) H1 H2)) |].
  vm_compute. reflexivity.
Defined.

(** C8 at three runs: a verbose one with a success, a rejection and a
    record without URLs; one that an exception cuts short before the
    warning of its last record; and a silent one. *)
Lemma streams_of_a_run_witness :
  let noisy := main (N := scripted one_rejected) verbose_args "config.toml"
                 (record <$> [entry_v4; entry_empty; entry_both]) (init w0) in
  let cut := main (N := scripted (answering 200)) verbose_args "config.toml"
               (record <$> [entry_v4; entry_schemeless; entry_empty]) (init w0) in
  let silent := main (N := scripted (answering 200)) lax_args "config.toml"
                  (record <$> [entry_v4]) (init w0) in
  ([entry_v4; entry_empty; entry_both] ≠ [] ∧
   stdout noisy.2 = ["Updated example.ydns.eu (IPv4) successfully.";
                     "Updated example.ydns.eu (IPv6) successfully."] ∧
   Forall diagnostic (stderr noisy.2) ∧
   length (stderr noisy.2) = 2%nat) ∧
  ([entry_v4; entry_schemeless; entry_empty] ≠ [] ∧
   stdout cut.2 = ["Updated example2.ydns.eu (IPv4) successfully."] ∧
   Forall diagnostic (stderr cut.2) ∧
   stderr cut.2 = [] ∧
   stderr (interpreter_exit (N := scripted (answering 200)) cut.1 cut.2).2
     = py_traceback (Network := scripted (answering 200))
         (OtherException "unknown url type: 'ydns.io/hosts/update/x'")) ∧
  ([entry_v4] ≠ [] ∧
   verbose lax_args = false ∧
   ¬ aborted silent.1 ∧
   forallb is_ok (attempts silent.2) = true ∧
   warnings_of [entry_v4] = 0%nat ∧
   stdout (interpreter_exit (N := scripted (answering 200)) silent.1 silent.2).2 = [] ∧
   stderr (interpreter_exit (N := scripted (answering 200)) silent.1 silent.2).2 = []).
Proof.
  intros noisy cut silent.
  assert ([entry_v4; entry_empty; entry_both] ≠ []) as Ha by discriminate.
  assert ([entry_v4; entry_schemeless; entry_empty] ≠ []) as Hb by discriminate.
  assert ([entry_v4] ≠ []) as Hc by discriminate.
  pose proof (streams_of_a_run (N := scripted one_rejected) verbose_args "config.toml"
                _ w0 Ha) as A.
  pose proof (streams_of_a_run (N := scripted (answering 200)) verbose_args "config.toml"
                _ w0 Hb) as B.
  pose proof (streams_of_a_run (N := scripted (answering 200)) lax_args "config.toml"
                _ w0 Hc) as C.
  cbv zeta in A, B, C.
  destruct A as (A1 & A2 & (n & A3 & _ & A4) & _).
  destruct B as (B1 & B2 & _ & _ & B3 & _).
  destruct C as (_ & _ & _ & _ & _ & C1).
  assert (stderr cut.2 = []) as B4 by (vm_compute; reflexivity).
  split; [split; [exact Ha | split; [| split; [exact A2 |]]] |
          split; [split; [exact Hb | split; [| split; [exact B2 | split; [exact B4 |]]]] |]].
  - etransitivity; [exact A1 |]. vm_compute. reflexivity.
  - assert (¬ aborted noisy.1) as Hnab.
    { intros (e & He). vm_compute in He. discriminate. }
    etransitivity; [exact A3 |]. rewrite (A4 Hnab). vm_compute. reflexivity.
  - etransitivity; [exact B1 |]. vm_compute. reflexivity.
  - etransitivity; [exact B3 |]. vm_compute. reflexivity.
  - assert (verbose lax_args = false) as H1 by reflexivity.
    assert (¬ aborted silent.1) as H2.
    { intros (e & He). vm_compute in He. discriminate. }
    assert (forallb is_ok (attempts silent.2) = true) as H3 by (vm_compute; reflexivity).
    assert (warnings_of [entry_v4] = 0%nat) as H4 by (vm_compute; reflexivity).
    split; [exact Hc | split; [exact H1 | split; [exact H2 | split;
      [exact H3 | split; [exact H4 |]]]]].
    exact (C1 H1 H2 H3 H4).
Defined.

(** The record-level statements at sample records. *)
Lemma blank_url_counts_as_absent_witness :
  (entry_blank_url !! "update_url" = None ∨ entry_blank_url !! "update_url" = Some EmptyString) ∧
  (entry_blank_url !! "update_url_v6" = None ∨
   entry_blank_url !! "update_url_v6" = Some EmptyString) ∧
  main_loop_body (N := scripted (answering 200))
      (_make_opener (N := scripted (answering 200)) false)
      (_make_opener (N := scripted (answering 200)) true)
      false (record entry_blank_url) (false, false) (init w0)
    = (inr (false, false),
       err_line (no_urls_line (domain_of entry_blank_url)) (init w0)) ∧
  main_loop_body (N := scripted (answering 200))
      (_make_opener (N := scripted (answering 200)) false)
      (_make_opener (N := scripted (answering 200)) true)
      false (record entry_half_blank) (false, false) (init w0)
    = main_loop_body (N := scripted (answering 200))
        (_make_opener (N := scripted (answering 200)) false)
        (_make_opener (N := scripted (answering 200)) true)
        false
        (record (drop_blank "update_url" (drop_blank "update_url_v6" entry_half_blank)))
        (false, false) (init w0).
Proof.
  assert (entry_blank_url !! "update_url" = None ∨
          entry_blank_url !! "update_url" = Some EmptyString) as H1
    by (right; vm_compute; reflexivity).
  assert (entry_blank_url !! "update_url_v6" = None ∨
          entry_blank_url !! "update_url_v6" = Some EmptyString) as H2
    by (left; vm_compute; reflexivity).
  split; [exact H1 | split; [exact H2 | split]].
  - exact (proj1 (proj2 (blank_url_counts_as_absent (N := scripted (answering 200))
              (_make_opener (N := scripted (answering 200)) false)
              (_make_opener (N := scripted (answering 200)) true)
              false entry_blank_url (false, false) (init w0)) H1 H2)).
  - exact (proj2 (proj2 (proj1 (blank_url_counts_as_absent (N := scripted (answering 200))
              (_make_opener (N := scripted (answering 200)) false)
              (_make_opener (N := scripted (answering 200)) true)
              false entry_half_blank (false, false) (init w0))))).
Defined.

Lemma missing_domain_placeholder_witness :
  entry_nameless !! "domain" = None ∧
  main_loop_body (N := scripted (answering 400))
      (_make_opener (N := scripted (answering 400)) false)
      (_make_opener (N := scripted (answering 400)) true)
      false (record entry_nameless) (false, false) (init w0)
    = main_loop_body (N := scripted (answering 400))
        (_make_opener (N := scripted (answering 400)) false)
        (_make_opener (N := scripted (answering 400)) true)
        false (record (<["domain" := "<undefined>"]> entry_nameless))
        (false, false) (init w0) ∧
  stderr (main_loop_body (N := scripted (answering 400))
            (_make_opener (N := scripted (answering 400)) false)
            (_make_opener (N := scripted (answering 400)) true)
            false (record entry_nameless) (false, false) (init w0)).2
    = ["<undefined> (IPv6): server rejected the request (400). You may not have a public IPv6 address."].
Proof.
  assert (entry_nameless !! "domain" = None) as H by (vm_compute; reflexivity).
  split; [exact H | split].
  - exact (proj1 (missing_domain_placeholder (N := scripted (answering 400))
             (_make_opener (N := scripted (answering 400)) false)
             (_make_opener (N := scripted (answering 400)) true)
             false entry_nameless (false, false) (init w0)
             (quiet_make_opener (N := scripted (answering 400)) false)
             (quiet_make_opener (N := scripted (answering 400)) true) H)).
  - vm_compute. reflexivity.
Defined.

Lemma exit_status_priority_witness :
  [entry_v4] ≠ [] ∧
  ¬ aborted (main (N := scripted (answering 404)) strict_args "config.toml"
               (record <$> [entry_v4]) (init w0)).1 ∧
  exit_status (main (N := scripted (answering 404)) strict_args "config.toml"
                 (record <$> [entry_v4]) (init w0)).1 = EX_UPDATE_FAILED.
Proof.
  assert ([entry_v4] ≠ []) as H by discriminate.
  assert (¬ aborted (main (N := scripted (answering 404)) strict_args "config.toml"
                       (record <$> [entry_v4]) (init w0)).1) as H'.
  { intros (e & He). vm_compute in He. discriminate. }
  split; [exact H | split; [exact H' |]].
  etransitivity;
    [exact (proj2 (exit_status_priority (N := scripted (answering 404)) strict_args
              "config.toml" [entry_v4] w0 H) H') |].
  vm_compute. reflexivity.
Defined.

End Runs.

(** ** The start of [main] *)

Section Startup_Properties.
Context {W : Type} {N : Network W} {F : Files}.
Implicit Types (st : State W) (args : Namespace).

Lemma append_assoc (a b c : string) : (a +:+ b) +:+ c = a +:+ b +:+ c.
Proof. induction a as [| ch a IH]; [done | exact (f_equal (String ch) IH)]. Qed.

(** X1. An explicit configuration path that does not exist ends the process
    with status 1 after one line on the error stream that names the
    path; the default paths play no part. *)
Theorem explicit_config_missing args st :
  truthy (config args) = true →
  path_exists (path_str (default EmptyString (config args))) = inr false →
  main_from_args args st =
    (inl (SystemExit 1),
     err_line ("Config file not found: " +:+
               path_str (default EmptyString (config args))) st).
Proof.
  intros Ht He. unfold main_from_args, locate_config, bind.
  rewrite Ht, He. reflexivity.
Qed.

(** X2. Without a configuration option, or with an empty one, the user's
    file is taken when it exists, whether or not the system-wide file
    exists too; the system-wide file is taken only when the user's is
    missing; when both are missing the process ends with status 1 and
    the message lists both paths in the order searched. *)
Theorem default_config_priority args st :
  config args = None ∨ config args = Some EmptyString →
  (path_exists user_config = inr true →
     locate_config args st = (inr user_config, st)) ∧
  (path_exists user_config = inr false → path_exists "/etc/ydns-py.toml" = inr true →
     locate_config args st = (inr "/etc/ydns-py.toml", st)) ∧
  (path_exists user_config = inr false → path_exists "/etc/ydns-py.toml" = inr false →
     locate_config args st =
       (inl (SystemExit 1),
        err_line ("Config file not found (searched: " +:+ user_config +:+
                  ", /etc/ydns-py.toml)") st)).
Proof.
  intros Hc.
  assert (truthy (config args) = false) as Ht by (by destruct Hc as [-> | ->]).
  unfold locate_config. rewrite Ht. simpl.
  repeat split.
  - by intros ->.
  - by intros -> ->.
  - intros -> ->. unfold bind, print_stderr, sys_exit, raise. simpl.
    by rewrite append_assoc.
Qed.

(** X3. When the file that was located cannot be opened or parsed, the
    process ends with status 2 after one line on the error stream that
    names the file and the error. *)
Theorem unreadable_config args st path st1 e :
  locate_config args st = (inr path, st1) →
  toml_load path = inl e →
  main_from_args args st =
    (inl (SystemExit 2),
     err_line ("Failed to read " +:+ path +:+ ": " +:+ str_exception e) st1).
Proof.
  intros Hl He. unfold main_from_args, bind. rewrite Hl.
  unfold load_config. rewrite He. reflexivity.
Qed.

(** X4. A configuration without a [domains] key is treated as one whose
    [domains] is empty: status 3 after one line that names the file. *)
Theorem config_without_domains args st path st1 config :
  locate_config args st = (inr path, st1) →
  toml_load path = inr config →
  config !! "domains" = None ∨ config !! "domains" = Some (Array []) →
  main_from_args args st =
    (inl (SystemExit 3),
     err_line ("No [[domains]] entries found in " +:+ path) st1).
Proof.
  intros Hl Hc Hd. unfold main_from_args, bind. rewrite Hl.
  unfold load_config. rewrite Hc. simpl.
  by destruct Hd as [-> | ->].
Qed.

(** X17. The search for the configuration file does not hide an error of the
    file system: when [exists()] raises for the path it is asked about,
    nothing catches the exception, and nothing was printed. *)
Theorem config_search_raises args st e :
  (truthy (config args) = true →
   path_exists (path_str (default EmptyString (config args))) = inl e →
   main_from_args args st = (inl (Exception e), st)) ∧
  (truthy (config args) = false →
   path_exists user_config = inl e →
   main_from_args args st = (inl (Exception e), st)) ∧
  (truthy (config args) = false →
   path_exists user_config = inr false →
   path_exists "/etc/ydns-py.toml" = inl e →
   main_from_args args st = (inl (Exception e), st)).
Proof.
  unfold main_from_args, locate_config, bind.
  split; [| split].
  - by intros -> ->.
  - intros -> He. simpl. by rewrite He.
  - intros -> H1 H2. simpl. by rewrite H1, H2.
Qed.

(** X18. What is found under [domains] need not be an array of tables.  An
    array is gone through item by item; a value that counts as false
    ends the process with status 3; a string or a table that is not
    empty fails at the first [entry.get], its items being strings, and a
    number, a date or [true] fails as not iterable: both with an
    exception nobody catches, before any update. *)
Theorem domains_of_any_shape args st path st1 config domains :
  locate_config args st = (inr path, st1) →
  toml_load path = inr config →
  config !! "domains" = Some domains →
  main_from_args args st =
    match domains with
    | Array items => main args path items st1
    | Text EmptyString | Subtable [] | Scalar false _ =>
        (inl (SystemExit 3),
         err_line ("No [[domains]] entries found in " +:+ path) st1)
    | Text _ | Subtable _ =>
        (inl (Exception (OtherException "'str' object has no attribute 'get'")), st1)
    | Scalar true type_name =>
        (inl (Exception (OtherException
           ("'" +:+ type_name +:+ "' object is not iterable"))), st1)
    end.
Proof.
  intros Hl Hc Hd. unfold main_from_args, bind. rewrite Hl.
  unfold load_config. rewrite Hc. simpl. rewrite Hd. simpl.
  destruct domains as [[| item items] | [| ch s] | [| key keys] | [] type_name];
    try reflexivity.
Qed.

End Startup_Properties.

(** ** The further statements at concrete inputs *)

Section More_Runs.

(** A path given on the command line that does not exist, while both
    default files do. *)
Lemma explicit_config_missing_witness :
  let F := disk [home_config; "/etc/ydns-py.toml"] (λ _, inr sample_config) home_config in
  let args := mkArgs (Some "/tmp/missing.toml") false false in
  truthy (config args) = true ∧
  path_exists (Files := F) (path_str (Files := F) (default EmptyString (config args)))
    = inr false ∧
  main_from_args (N := scripted (answering 200)) (F := F) args (init w0) =
    (inl (SystemExit 1),
     err_line "Config file not found: /tmp/missing.toml" (init w0)).
Proof.
  intros F args.
  assert (truthy (config args) = true) as H1 by reflexivity.
  assert (path_exists (Files := F)
            (path_str (Files := F) (default EmptyString (config args))) = inr false) as H2
    by (vm_compute; reflexivity).
  split; [exact H1 | split; [exact H2 |]].
  exact (explicit_config_missing (N := scripted (answering 200)) (F := F)
           args (init w0) H1 H2).
Defined.

(** A machine that has both default files. *)
Lemma default_config_priority_witness :
  let F := disk [home_config; "/etc/ydns-py.toml"] (λ _, inr sample_config) home_config in
  (config lax_args = None ∨ config lax_args = Some EmptyString) ∧
  path_exists (Files := F) (user_config (Files := F)) = inr true ∧
  locate_config (W := Sockets) (F := F) lax_args (init w0) = (inr home_config, init w0).
Proof.
  intros F.
  assert (config lax_args = None ∨ config lax_args = Some EmptyString) as H1
    by (left; reflexivity).
  assert (path_exists (Files := F) (user_config (Files := F)) = inr true) as H2
    by (vm_compute; reflexivity).
  split; [exact H1 | split; [exact H2 |]].
  exact (proj1 (default_config_priority (W := Sockets) (F := F) lax_args (init w0) H1) H2).
Defined.

(** A file that is not valid TOML. *)
Lemma unreadable_config_witness :
  let F := disk [home_config]
             (λ _, inl (OtherException "Invalid statement (at line 1, column 1)"))
             home_config in
  locate_config (W := Sockets) (F := F) lax_args (init w0) = (inr home_config, init w0) ∧
  toml_load (Files := F) home_config
    = inl (OtherException "Invalid statement (at line 1, column 1)") ∧
  main_from_args (N := scripted (answering 200)) (F := F) lax_args (init w0) =
    (inl (SystemExit 2),
     err_line ("Failed to read " +:+ home_config +:+
               ": Invalid statement (at line 1, column 1)") (init w0)).
Proof.
  intros F.
  assert (locate_config (W := Sockets) (F := F) lax_args (init w0)
          = (inr home_config, init w0)) as H1 by (vm_compute; reflexivity).
  assert (toml_load (Files := F) home_config
          = inl (OtherException "Invalid statement (at line 1, column 1)")) as H2
    by reflexivity.
  split; [exact H1 | split; [exact H2 |]].
  exact (unreadable_config (N := scripted (answering 200)) (F := F) lax_args
           (init w0) home_config (init w0) _ H1 H2).
Defined.

(** A file that parses to the empty table. *)
Lemma config_without_domains_witness :
  let F := disk [home_config] (λ _, inr ∅) home_config in
  locate_config (W := Sockets) (F := F) lax_args (init w0) = (inr home_config, init w0) ∧
  toml_load (Files := F) home_config = inr ∅ ∧
  ((∅ : gmap string toml) !! "domains" = None ∨
   (∅ : gmap string toml) !! "domains" = Some (Array [])) ∧
  main_from_args (N := scripted (answering 200)) (F := F) lax_args (init w0) =
    (inl (SystemExit 3),
     err_line ("No [[domains]] entries found in " +:+ home_config) (init w0)).
Proof.
  intros F.
  assert (locate_config (W := Sockets) (F := F) lax_args (init w0)
          = (inr home_config, init w0)) as H1 by (vm_compute; reflexivity).
  assert (toml_load (Files := F) home_config = inr ∅) as H2 by reflexivity.
  assert ((∅ : gmap string toml) !! "domains" = None ∨
          (∅ : gmap string toml) !! "domains" = Some (Array [])) as H3
    by (left; reflexivity).
  split; [exact H1 | split; [exact H2 | split; [exact H3 |]]].
  exact (config_without_domains (N := scripted (answering 200)) (F := F) lax_args
           (init w0) home_config (init w0) ∅ H1 H2 H3).
Defined.

(** A home directory that may not be searched. *)
Lemma config_search_raises_witness :
  let F := {| path_str s := s;
              path_exists p := inl (OSError "[Errno 13] Permission denied");
              toml_load := λ _, inr sample_config;
              user_config := home_config |} in
  truthy (config lax_args) = false ∧
  path_exists (Files := F) (user_config (Files := F))
    = inl (OSError "[Errno 13] Permission denied") ∧
  main_from_args (N := scripted (answering 200)) (F := F) lax_args (init w0) =
    (inl (Exception (OSError "[Errno 13] Permission denied")), init w0).
Proof.
  intros F.
  assert (truthy (config lax_args) = false) as H1 by reflexivity.
  assert (path_exists (Files := F) (user_config (Files := F))
          = inl (OSError "[Errno 13] Permission denied")) as H2 by reflexivity.
  split; [exact H1 | split; [exact H2 |]].
  exact (proj1 (proj2 (config_search_raises (N := scripted (answering 200)) (F := F)
                  lax_args (init w0) _)) H1 H2).
Defined.

(** A file with [domains = "example.ydns.eu"], and the sample file. *)
Lemma domains_of_any_shape_witness :
  let F := disk [home_config] (λ _, inr {[ "domains" := Text "example.ydns.eu" ]})
             home_config in
  let G := disk [home_config] (λ _, inr sample_config) home_config in
  locate_config (W := Sockets) (F := F) lax_args (init w0) = (inr home_config, init w0) ∧
  toml_load (Files := F) home_config = inr {[ "domains" := Text "example.ydns.eu" ]} ∧
  ({[ "domains" := Text "example.ydns.eu" ]} : gmap string toml) !! "domains"
    = Some (Text "example.ydns.eu") ∧
  main_from_args (N := scripted (answering 200)) (F := F) lax_args (init w0) =
    (inl (Exception (OtherException "'str' object has no attribute 'get'")), init w0) ∧
  sample_config !! "domains" = Some (Array [record entry_both; record entry_v4]) ∧
  main_from_args (N := scripted (answering 200)) (F := G) lax_args (init w0) =
    main (N := scripted (answering 200)) lax_args home_config
      [record entry_both; record entry_v4] (init w0).
Proof.
  intros F G.
  assert (locate_config (W := Sockets) (F := F) lax_args (init w0)
          = (inr home_config, init w0)) as H1 by (vm_compute; reflexivity).
  assert (locate_config (W := Sockets) (F := G) lax_args (init w0)
          = (inr home_config, init w0)) as H1' by (vm_compute; reflexivity).
  assert (toml_load (Files := F) home_config
          = inr {[ "domains" := Text "example.ydns.eu" ]}) as H2 by reflexivity.
  assert (toml_load (Files := G) home_config = inr sample_config) as H2' by reflexivity.
  assert (({[ "domains" := Text "example.ydns.eu" ]} : gmap string toml) !! "domains"
          = Some (Text "example.ydns.eu")) as H3 by (vm_compute; reflexivity).
  assert (sample_config !! "domains" = Some (Array [record entry_both; record entry_v4]))
    as H3' by (vm_compute; reflexivity).
  split; [exact H1 | split; [exact H2 | split; [exact H3 | split; [| split; [exact H3' |]]]]].
  - exact (domains_of_any_shape (N := scripted (answering 200)) (F := F) lax_args
             (init w0) home_config (init w0) _ _ H1 H2 H3).
  - exact (domains_of_any_shape (N := scripted (answering 200)) (F := G) lax_args
             (init w0) home_config (init w0) _ _ H1' H2' H3').
Defined.

(** A direct connection and a tunnelled one that succeed. *)
Lemma connect_success_wraps_socket_witness :
  let r := connect (N := scripted (answering 200)) dialled_directly (init w0) in
  let r' := connect (N := scripted tunnel_made) proxied (init w0) in
  (r = (r.1, r.2) ∧ r.1 = inr tt ∧
   self_sock r.2 = Some (TLSSocket 3 "ydns.io") ∧
   calls r.2 = [EvGetaddrinfo "ydns.io" 443 AF_INET6 SOCK_STREAM;
                EvSocket AF_INET6 SOCK_STREAM 6 (Some 3); EvSetTimeout 3 5;
                EvConnect 3 ("2001:db8::1", 443); EvWrapSocket 3 "ydns.io"]) ∧
  (r' = (r'.1, r'.2) ∧ r'.1 = inr tt ∧
   ∃ af ty proto sa s,
     self_sock r'.2 = Some (TLSSocket s (tls_name proxied)) ∧
     logged (init w0) r'.2
       ([EvGetaddrinfo "proxy.example" 3128 AF_INET SOCK_STREAM;
         EvSocket af ty proto (Some s); EvSetTimeout s 5; EvConnect s sa] ++
        [EvTunnel s (tls_name proxied)] ++ [EvWrapSocket s (tls_name proxied)])).
Proof.
  intros r r'.
  assert (r = (r.1, r.2)) as H1 by (by destruct r).
  assert (r.1 = inr tt) as H2 by (vm_compute; reflexivity).
  assert (r' = (r'.1, r'.2)) as H1' by (by destruct r').
  assert (r'.1 = inr tt) as H2' by (vm_compute; reflexivity).
  split; [split; [exact H1 | split; [exact H2 |]] | split; [exact H1' | split; [exact H2' |]]].
  - destruct (connect_success_wraps_socket (N := scripted (answering 200))
                dialled_directly (init w0) r.1 r.2 H1 H2)
      as (af & ty & proto & name & sa & more & w1 & s & w2 & w3 & K1 & K2 & K3 & K4 & K5).
    vm_compute in K1, K2. simplify_eq.
    split; [exact K4 | exact K5].
  - destruct (connect_success_wraps_socket (N := scripted tunnel_made)
                proxied (init w0) r'.1 r'.2 H1' H2')
      as (af & ty & proto & name & sa & more & w1 & s & w2 & w3 & _ & _ & _ & K4 & K5).
    exists af, ty, proto, sa, s. split; [exact K4 | exact K5].
Defined.

(** A peer that refuses the connection, a proxy that refuses the tunnel,
    a proxy that never answers, and a TLS handshake that fails behind a
    tunnel. *)
Lemma connect_failure_self_sock_witness :
  (∃ e st' evs,
     connect (N := scripted refusing) dialled_directly (init w0) = (inl e, st') ∧
     logged (init w0) st' evs ∧ (∀ s h, EvTunnel s h ∉ evs) ∧
     self_sock st' = self_sock (init w0)) ∧
  self_sock (connect (N := scripted tunnel_refused) proxied (init w0)).2 = None ∧
  self_sock (connect (N := scripted tunnel_times_out) proxied (init w0)).2
    = Some (RawSocket 3) ∧
  self_sock (connect (N := scripted (mkScript resolve_both None TunnelOpen
               (HandshakeFailed (OSFault "[SSL: CERTIFICATE_VERIFY_FAILED]"))
               (λ _, inr (Some 200)) via_proxy)) proxied (init w0)).2
    = Some (RawSocket 3).
Proof.
  split; [| split; [| split]].
  - pose (r := connect (N := scripted refusing) dialled_directly (init w0)).
    assert (connect (N := scripted refusing) dialled_directly (init w0)
            = (inl (Exception (OSError "[Errno 111] Connection refused")), r.2)) as H1
      by (vm_compute; reflexivity).
    assert (logged (init w0) r.2
              [EvGetaddrinfo "ydns.io" 443 AF_INET6 SOCK_STREAM;
               EvSocket AF_INET6 SOCK_STREAM 6 (Some 3%Z); EvSetTimeout 3 5;
               EvConnect 3 ("2001:db8::1", 443%Z); EvClose 3]) as H2
      by (vm_compute; reflexivity).
    assert (∀ s h, EvTunnel s h ∉
              [EvGetaddrinfo "ydns.io" 443 AF_INET6 SOCK_STREAM;
               EvSocket AF_INET6 SOCK_STREAM 6 (Some 3%Z); EvSetTimeout 3 5;
               EvConnect 3 ("2001:db8::1", 443%Z); EvClose 3]) as H3.
    { intros s h Hin.
      repeat (apply elem_of_cons in Hin as [Hin | Hin]; [discriminate |]).
      by apply elem_of_nil in Hin. }
    eexists _, r.2, _. split; [exact H1 | split; [exact H2 | split; [exact H3 |]]].
    exact (proj1 (connect_failure_self_sock (N := scripted refusing))
             dialled_directly (init w0) _ r.2 _ H1 H2 H3).
  - destruct (proj1 (proj2 (connect_failure_self_sock (N := scripted tunnel_refused)))
                proxied (init w0) 3%Z (mkSockets 4 [3%Z]) 403%Z "Forbidden"
                (mkSockets 4 [3%Z])) as (e & _ & K).
    + by eapply dialled_in_script.
    + reflexivity.
    + reflexivity.
    + exact K.
  - destruct (proj1 (proj2 (proj2 (connect_failure_self_sock
                (N := scripted tunnel_times_out))))
                proxied (init w0) 3%Z (mkSockets 4 [3%Z]) (OSFault "timed out")
                (mkSockets 4 [3%Z])) as (e & _ & K).
    + by eapply dialled_in_script.
    + reflexivity.
    + reflexivity.
    + exact K.
  - destruct (proj2 (proj2 (proj2 (connect_failure_self_sock
                (N := scripted (mkScript resolve_both None TunnelOpen
                   (HandshakeFailed (OSFault "[SSL: CERTIFICATE_VERIFY_FAILED]"))
                   (λ _, inr (Some 200)) via_proxy)))))
                proxied (init w0) 3%Z (mkSockets 4 [3%Z]) (mkSockets 4 [3%Z])
                (HandshakeFailed (OSFault "[SSL: CERTIFICATE_VERIFY_FAILED]"))
                (mkSockets 4 [3%Z])) as (e & _ & K).
    + by eapply dialled_in_script.
    + reflexivity.
    + reflexivity.
    + reflexivity.
    + discriminate.
    + exact K.
Defined.

(** One update for a URL without scheme, one whose response has no
    status, and one that is answered. *)
Lemma update_returns_or_escapes_witness :
  let N0 := scripted (answering 200) in
  let N1 := scripted (mkScript resolve_both None TunnelOpen Wrapped (λ _, inr None) direct) in
  _update (N := N0) (_make_opener (N := N0) false) "ydns.io/hosts/update/x"
      "example6.ydns.eu" "IPv4" false (init w0)
    = (inl (Exception (OtherException "unknown url type: 'ydns.io/hosts/update/x'")),
       init w0) ∧
  (_update (N := N1) (_make_opener (N := N1) false) sample_url
      "example2.ydns.eu" "IPv4" false (init w0)).1
    = inl (Exception (OtherException
        "'<=' not supported between instances of 'int' and 'NoneType'")) ∧
  (∃ res st', _update (N := N0) (_make_opener (N := N0) false) sample_url
      "example2.ydns.eu" "IPv4" false (init w0) = (inr res, st')).
Proof.
  intros N0 N1.
  assert (lib_new_request (Network := N0) "ydns.io/hosts/update/x"
          = Some (OtherException "unknown url type: 'ydns.io/hosts/update/x'")) as H0
    by (vm_compute; reflexivity).
  assert (lib_new_request (Network := N1) sample_url = None) as H1
    by (vm_compute; reflexivity).
  assert (lib_new_request (Network := N0) sample_url = None) as H2
    by (vm_compute; reflexivity).
  split; [| split].
  - exact (proj1 (update_returns_or_escapes (N := N0) (_make_opener (N := N0) false)
             "ydns.io/hosts/update/x" "example6.ydns.eu" "IPv4" false (init w0)) _ H0).
  - pose (r := open (_make_opener (N := N1) false) (request_for (N := N1) sample_url)
                 TIMEOUT (init w0)).
    assert (open (_make_opener (N := N1) false) (request_for (N := N1) sample_url)
              TIMEOUT (init w0) = (inr (mkResponse None), r.2)) as H3
      by (vm_compute; reflexivity).
    pose proof (proj2 (update_returns_or_escapes (N := N1) (_make_opener (N := N1) false)
                  sample_url "example2.ydns.eu" "IPv4" false (init w0)) H1 _ _ H3) as K.
    simpl in K. rewrite K. reflexivity.
  - pose (r := open (_make_opener (N := N0) false) (request_for (N := N0) sample_url)
                 TIMEOUT (init w0)).
    assert (open (_make_opener (N := N0) false) (request_for (N := N0) sample_url)
              TIMEOUT (init w0) = (inr (mkResponse (Some 200%Z)), r.2)) as H3
      by (vm_compute; reflexivity).
    exact (proj2 (update_returns_or_escapes (N := N0) (_make_opener (N := N0) false)
             sample_url "example2.ydns.eu" "IPv4" false (init w0)) H2 _ _ H3).
Defined.

End More_Runs.
